(** * mldr.core.config: configuration schema, credential loader, validation

    A shallow embedding of [src/mldr/core/config.py].

    Modelling conventions.
    - A Python [str] is a Rocq [string] whose characters are the code points
      0..255; [strip] and [repr] below follow CPython on that range.
    - Python [int] is [Z], [bool] is [bool].
    - Mutable objects (lists, [ModelConfig] and [Config] instances) live in a
      heap; a reference is an index into it.  Object identity ([is]) is
      equality of references.  The order in which fresh references are drawn
      during one constructor call is not observable in Python and is not
      meant to match CPython's.
    - A raised exception is the [Raise] result; the heap is threaded through
      both outcomes.
    - [os.environ] and the dictionary returned by [load_api_keys] are finite
      maps from strings to strings.
    - Attribute lookup on a [Config] knows the fields and the methods of the
      class body; the attributes the dataclass decorator and [object] add
      are a parameter of the lookup, and the statements about it hold for
      every value of that parameter. *)

From Stdlib Require Import ZArith Ascii String.
From stdpp Require Import base option list strings gmap.

Local Open Scope string_scope.
Local Open Scope list_scope.

(** ** Python strings *)

Module PyStr.

Local Open Scope Z_scope.

(** [bool(s)] for a string: non-empty. *)
Definition truthy (s : string) : bool :=
  match s with
  | EmptyString => false
  | String _ _ => true
  end.

(** [Py_UNICODE_ISSPACE] on code points below 256: TAB..CR, FS..US, space,
    NEL and NBSP. *)
Definition isspace (c : ascii) : bool :=
  let n := Z.of_N (N_of_ascii c) in
  ((9 <=? n) && (n <=? 13)) || ((28 <=? n) && (n <=? 32))
  || (n =? 133) || (n =? 160).

Fixpoint lstrip_chars (l : list ascii) : list ascii :=
  match l with
  | c :: l' => if isspace c then lstrip_chars l' else l
  | [] => []
  end.

Definition rstrip_chars (l : list ascii) : list ascii :=
  rev (lstrip_chars (rev l)).

(** [s.strip()] with no argument. *)
Definition strip (s : string) : string :=
  string_of_list_ascii
    (rstrip_chars (lstrip_chars (list_ascii_of_string s))).

(** [t in s] for strings, as a proposition. *)
Definition Substring (t s : string) : Prop :=
  ∃ a b, s = a +:+ t +:+ b.

(** *** [repr] of a string *)

Definition hexdigit (n : Z) : ascii :=
  ascii_of_N (Z.to_N (if n <? 10 then 48 + n else 87 + n)).

Definition dquote : ascii := ascii_of_N 34.

Fixpoint contains_char (q : ascii) (s : string) : bool :=
  match s with
  | EmptyString => false
  | String c s' => Ascii.eqb c q || contains_char q s'
  end.

(** The quote [repr] picks: double quotes only when the string has a
    single quote and no double quote. *)
Definition repr_quote (s : string) : ascii :=
  if contains_char "'" s && negb (contains_char dquote s)
  then dquote else "'"%char.

(** Printable code points below 256: the ASCII graphic characters and
    space, and 0xA1..0xFF except the soft hyphen 0xAD. *)
Definition isprintable (c : ascii) : bool :=
  let n := Z.of_N (N_of_ascii c) in
  ((32 <=? n) && (n <? 127)) || ((161 <=? n) && negb (n =? 173)).

Definition repr_char (q c : ascii) : string :=
  let n := Z.of_N (N_of_ascii c) in
  if Ascii.eqb c q || Ascii.eqb c "\" then String "\" (String c EmptyString)
  else if n =? 9 then "\t"
  else if n =? 10 then "\n"
  else if n =? 13 then "\r"
  else if isprintable c then String c EmptyString
  else String "\" (String "x"
         (String (hexdigit (n / 16)) (String (hexdigit (n mod 16)) EmptyString))).

Fixpoint repr_body (q : ascii) (s : string) : string :=
  match s with
  | EmptyString => EmptyString
  | String c s' => repr_char q c +:+ repr_body q s'
  end.

Definition repr (s : string) : string :=
  let q := repr_quote s in
  String q (repr_body q s +:+ String q EmptyString).

(** [", ".join(parts)]. *)
Fixpoint join (sep : string) (parts : list string) : string :=
  match parts with
  | [] => EmptyString
  | [p] => p
  | p :: rest => p +:+ sep +:+ join sep rest
  end.

(** [repr] of a list of strings, which is also its [str] and what an
    f-string interpolates. *)
Definition repr_list (l : list string) : string :=
  "[" +:+ join ", " (map repr l) +:+ "]".

End PyStr.

(** ** Exceptions, results, the heap *)

Inductive exn : Type :=
| ValueError (msg : string)
| KeyError (arg : string)
| TypeError (msg : string)
| AttributeError (msg : string).

Inductive result (A : Type) : Type :=
| Ok (a : A)
| Raise (e : exn).
Arguments Ok {A} a.
Arguments Raise {A} e.

(** A reference to a heap object. *)
Definition loc := nat.

(** [ModelConfig]: a plain, non-frozen dataclass. *)
Record ModelConfig : Type := mkModelConfig {
  enabled : bool;
  model_name : string;
  timeout_sec : Z
}.

(** [Config]: the list and the five per-model records are held by
    reference, [chairman_model] is an (immutable) string. *)
Record Config : Type := mkConfig {
  primary_models : loc;
  chairman_model : string;
  gpt : loc;
  claude : loc;
  gemini : loc;
  perplexity : loc;
  grok : loc
}.

Inductive object : Type :=
| OList (items : list string)
| OModelConfig (m : ModelConfig)
| OConfig (c : Config).

Definition heap := list object.

(** What attribute access can return on a [Config]: a string, a reference
    to a heap object, a method bound to the instance, or some other object
    of the run-time system (a class, a dictionary, ...), known by a
    description only. *)
Inductive value : Type :=
| VStr (s : string)
| VRef (l : loc)
| VBoundMethod (self : loc) (name : string)
| VOther (descr : string).

(** Computations that read and extend the heap and may raise. *)
Definition M (A : Type) : Type := heap -> result A * heap.

Definition ret {A} (a : A) : M A := fun h => (Ok a, h).

Definition bind {A B} (m : M A) (k : A -> M B) : M B :=
  fun h =>
    match m h with
    | (Ok a, h') => k a h'
    | (Raise e, h') => (Raise e, h')
    end.

Definition raise {A} (e : exn) : M A := fun h => (Raise e, h).

Declare Scope py_scope.
Delimit Scope py_scope with py.
Notation "'let!' x ':=' m 'in' k" := (bind m (fun x => k))
  (at level 10, x name, m at level 100, k at level 200) : py_scope.
Notation "'do!' m 'in' k" := (bind m (fun _ => k))
  (at level 10, m at level 100, k at level 200) : py_scope.
Local Open Scope py_scope.

(** Allocation of a new object: a reference no live object has. *)
Definition alloc (o : object) : M loc :=
  fun h => (Ok (length h), h ++ [o]).

Definition type_name (o : object) : string :=
  match o with
  | OList _ => "list"
  | OModelConfig _ => "ModelConfig"
  | OConfig _ => "Config"
  end.

(** Dereference [self] as a [Config]. *)
Definition read_config (self : loc) : M Config :=
  fun h =>
    match h !! self with
    | Some (OConfig c) => (Ok c, h)
    | _ => (Raise (TypeError "not a Config"), h)
    end.

(** Dereference a reference that [__post_init__] treats as a sequence. *)
Definition read (l : loc) : M object :=
  fun h =>
    match h !! l with
    | Some o => (Ok o, h)
    | None => (Raise (TypeError "dangling reference"), h)
    end.

(** [if cond: raise e]. *)
Definition raise_if (cond : bool) (e : exn) : M unit :=
  if cond then raise e else ret tt.

(** [x in items] on a list of strings. *)
Definition list_contains (x : string) (items : list string) : bool :=
  existsb (String.eqb x) items.

(** [bool(items)] for a list: non-empty. *)
Definition list_truthy (items : list string) : bool :=
  match items with
  | [] => false
  | _ :: _ => true
  end.

(** ** ModelConfig *)

(** The generated [ModelConfig.__init__]; [timeout_sec] is the keyword
    with default 600. *)
Definition ModelConfig_init (enabled : bool) (model_name : string)
    (timeout_sec : option Z) : M loc :=
  alloc (OModelConfig
           {| enabled := enabled;
              model_name := model_name;
              timeout_sec := default 600%Z timeout_sec |}).

(** ** Config *)

(** [Config.__post_init__] (lines 63-71). *)
Definition __post_init__ (self : loc) : M unit :=
  let! c := read_config self in
  let! pm := read (primary_models c) in
  match pm with
  | OList items =>
      do! raise_if (negb (list_truthy items))
            (ValueError "primary_models must contain at least one model") in
      do! raise_if (negb (list_contains (chairman_model c) items))
            (ValueError
               ("chairman_model='" +:+ chairman_model c
                +:+ "' must be included in "
                +:+ "primary_models=" +:+ PyStr.repr_list items)) in
      ret tt
  | o =>
      (* an instance without __bool__ or __len__ is truthy; [in] then fails *)
      raise (TypeError
               ("argument of type '" +:+ type_name o +:+ "' is not iterable"))
  end.

(** A field declared with [field(default_factory=...)]: the factory runs
    when the argument is not given. *)
Definition field_default (arg : option loc) (factory : M loc) : M loc :=
  match arg with
  | Some l => ret l
  | None => factory
  end.

(** The generated [Config.__init__] (fields of lines 41-61), ending with
    the call of [__post_init__]. *)
Definition Config_init (primary_models : loc) (chairman_model : option string)
    (gpt claude gemini perplexity grok : option loc) : M loc :=
  let! gpt := field_default gpt (ModelConfig_init true "gpt-4o" None) in
  let! claude :=
    field_default claude
      (ModelConfig_init true "claude-sonnet-4-20250514" None) in
  let! gemini :=
    field_default gemini (ModelConfig_init false "gemini-1.5-pro" None) in
  let! perplexity :=
    field_default perplexity (ModelConfig_init false "sonar-pro" None) in
  let! grok := field_default grok (ModelConfig_init false "grok-2" None) in
  let! self :=
    alloc (OConfig
             {| primary_models := primary_models;
                chairman_model := default "gpt" chairman_model;
                gpt := gpt; claude := claude; gemini := gemini;
                perplexity := perplexity; grok := grok |}) in
  do! __post_init__ self in
  ret self.

(** The instance attributes of a [Config], in field order. *)
Definition instance_dict (c : Config) : list (string * value) :=
  [ ("primary_models", VRef (primary_models c));
    ("chairman_model", VStr (chairman_model c));
    ("gpt", VRef (gpt c));
    ("claude", VRef (claude c));
    ("gemini", VRef (gemini c));
    ("perplexity", VRef (perplexity c));
    ("grok", VRef (grok c)) ].

(** The methods the class body defines. *)
Definition class_dict (self : loc) : list (string * value) :=
  [ ("__post_init__", VBoundMethod self "__post_init__");
    ("get_model_config", VBoundMethod self "get_model_config") ].

Fixpoint assoc {V} (k : string) (d : list (string * V)) : option V :=
  match d with
  | [] => None
  | (k', v) :: d' => if String.eqb k k' then Some v else assoc k d'
  end.

(** Attribute lookup on a [Config] instance.

    Besides its fields and the methods of the class body, an instance has
    the attributes the dataclass decorator generates ([__init__],
    [__repr__], [__eq__], [__dataclass_fields__], ...) and those every
    object inherits ([__class__], [__doc__], [__dict__], ...).  Which names
    these are depends on the Python version and is not in the source, so
    that namespace is a parameter, [inherited]: for the instance at [self],
    [inherited self name] is the attribute of that name, if there is one.
    None of the field names is a data descriptor of the class, so the
    instance dictionary answers first. *)
Section attribute_lookup.

Variable inherited : loc -> string -> option value.

(** [getattr(self, name)]: the instance dictionary, then the class. *)
Definition getattr (self : loc) (name : string) : M value :=
  let! c := read_config self in
  match assoc name (instance_dict c) with
  | Some v => ret v
  | None =>
      match assoc name (class_dict self) with
      | Some v => ret v
      | None =>
          match inherited self name with
          | Some v => ret v
          | None =>
              raise (AttributeError
                       ("'Config' object has no attribute '"
                        +:+ name +:+ "'"))
          end
      end
  end.

(** [hasattr(self, name)]: [getattr] with [AttributeError] caught. *)
Definition hasattr (self : loc) (name : string) : M bool :=
  fun h =>
    match getattr self name h with
    | (Ok _, h') => (Ok true, h')
    | (Raise (AttributeError _), h') => (Ok false, h')
    | (Raise e, h') => (Raise e, h')
    end.

(** [Config.get_model_config] (lines 73-81). *)
Definition get_model_config (self : loc) (model_id : string) : M value :=
  let! has := hasattr self model_id in
  do! raise_if (negb has)
        (KeyError ("Unknown model_id: '" +:+ model_id +:+ "'")) in
  getattr self model_id.

End attribute_lookup.

(** A few of the attributes CPython gives a [Config] instance beyond its
    fields and methods, for the examples. *)
Definition sample_inherited (self : loc) (name : string) : option value :=
  if String.eqb name "__init__" then Some (VBoundMethod self "__init__")
  else if String.eqb name "__doc__" then
    Some (VStr "Application configuration with all model configs.")
  else if String.eqb name "__class__" then
    Some (VOther "<class 'mldr.core.config.Config'>")
  else None.

(** ** Credentials *)

(** [_API_KEY_ENV_VARS] (lines 14-20): the items of the dictionary in
    insertion order. *)
Definition _API_KEY_ENV_VARS : list (string * string) :=
  [ ("gpt", "OPENAI_API_KEY");
    ("claude", "ANTHROPIC_API_KEY");
    ("gemini", "GOOGLE_API_KEY");
    ("perplexity", "PERPLEXITY_API_KEY");
    ("grok", "GROK_API_KEY") ].

(** One iteration of the loop of [load_api_keys] (lines 93-97). *)
Definition load_api_keys_step (environ : gmap string string)
    (keys : gmap string string) (item : string * string)
    : gmap string string :=
  let '(model_id, env_var) := item in
  match environ !! env_var with
  | Some value =>
      if PyStr.truthy value then
        let value := PyStr.strip value in
        if PyStr.truthy value then <[model_id := value]> keys else keys
      else keys
  | None => keys
  end.

(** [load_api_keys] (lines 84-98), as a function of [os.environ]. *)
Definition load_api_keys (environ : gmap string string)
    : gmap string string :=
  foldl (load_api_keys_step environ) ∅ _API_KEY_ENV_VARS.

(** [get_env_var_name] (lines 101-103): subscription of the table, which
    raises [KeyError(key)] on a missing key. *)
Definition get_env_var_name (model_id : string) : result string :=
  match assoc model_id _API_KEY_ENV_VARS with
  | Some v => Ok v
  | None => Raise (KeyError model_id)
  end.

(** [default_config] (lines 106-111): the list display builds a new list
    on every call. *)
Definition default_config : M loc :=
  let! pm := alloc (OList ["gpt"; "claude"]) in
  Config_init pm None None None None None None.

(** ** Mutation after construction

    Neither dataclass is declared frozen, so plain attribute assignment
    works on their instances, and a [Config] keeps the very list it was
    given, so whoever holds that list can change it in place. *)

(** [self.chairman_model = v] on a [Config] instance. *)
Definition setattr_chairman_model (self : loc) (v : string) : M unit :=
  let! c := read_config self in
  fun h =>
    (Ok tt,
     <[self := OConfig
         {| primary_models := primary_models c;
            chairman_model := v;
            gpt := gpt c; claude := claude c; gemini := gemini c;
            perplexity := perplexity c; grok := grok c |}]> h).

(** [l.clear()] on a list object. *)
Definition list_clear (l : loc) : M unit :=
  let! o := read l in
  match o with
  | OList _ => fun h => (Ok tt, <[l := OList []]> h)
  | _ =>
      raise (AttributeError
               ("'" +:+ type_name o +:+ "' object has no attribute 'clear'"))
  end.

(** ** Auxiliary definitions for the statements *)

(** The two consistency rules of [__post_init__], read off the heap. *)
Definition valid_config (h : heap) (self : loc) : Prop :=
  ∃ c items,
    h !! self = Some (OConfig c)
    ∧ h !! primary_models c = Some (OList items)
    ∧ items ≠ []
    ∧ chairman_model c ∈ items.

(** The outcome of the two checks for a given list and chairman. *)
Definition validation (items : list string) (chairman : string)
    : result unit :=
  if negb (list_truthy items) then
    Raise (ValueError "primary_models must contain at least one model")
  else if negb (list_contains chairman items) then
    Raise (ValueError
             ("chairman_model='" +:+ chairman +:+ "' must be included in "
              +:+ "primary_models=" +:+ PyStr.repr_list items))
  else Ok tt.

(** The five known identifiers. *)
Definition known_ids : list string :=
  ["gpt"; "claude"; "gemini"; "perplexity"; "grok"].

(** The records the five default factories build (lines 45-61). *)
Definition default_gpt : ModelConfig := mkModelConfig true "gpt-4o" 600.
Definition default_claude : ModelConfig :=
  mkModelConfig true "claude-sonnet-4-20250514" 600.
Definition default_gemini : ModelConfig :=
  mkModelConfig false "gemini-1.5-pro" 600.
Definition default_perplexity : ModelConfig :=
  mkModelConfig false "sonar-pro" 600.
Definition default_grok : ModelConfig := mkModelConfig false "grok-2" 600.

(** The instance together with the mutable objects it refers to. *)
Definition Config_objects (self : loc) (c : Config) : list loc :=
  [self; primary_models c; gpt c; claude c; gemini c; perplexity c; grok c].

Ltac solve_NoDup :=
  repeat (apply NoDup_cons_2;
          [rewrite ?not_elem_of_cons; repeat split;
           first [lia | apply not_elem_of_nil] |]);
  apply NoDup_nil_2.

(** What one environment variable contributes: its stripped value, when
    the variable is set and both tests of the loop body pass. *)
Definition api_key (environ : gmap string string) (env_var : string)
    : option string :=
  match environ !! env_var with
  | Some value =>
      if PyStr.truthy value then
        if PyStr.truthy (PyStr.strip value) then Some (PyStr.strip value)
        else None
      else None
  | None => None
  end.

(** What the constructor leaves in a model field: the argument when one
    is given, otherwise an object the call allocates, holding the record [d]
    of the field's default factory.  [h] is the heap before the call, [h']
    the heap after it. *)
Definition field_outcome (arg : option loc) (l : loc) (d : ModelConfig)
    (h h' : heap) : Prop :=
  match arg with
  | Some l0 => l = l0
  | None => h !! l = None ∧ h' !! l = Some (OModelConfig d)
  end.

(** A character that [repr] copies as it is when the quote is the single
    quote, and a string made of such characters only. *)
Definition plain_char (c : ascii) : bool :=
  PyStr.isprintable c && negb (Ascii.eqb c "'") && negb (Ascii.eqb c "\").

Definition plain (s : string) : bool :=
  forallb plain_char (list_ascii_of_string s).

(** * Properties *)

(** ** Strings *)

Section strings.

Lemma append_cons (x : ascii) (a b : string) :
  String x a +:+ b = String x (a +:+ b).
Proof. reflexivity. Qed.

Lemma append_assoc (a b c : string) : (a +:+ b) +:+ c = a +:+ (b +:+ c).
Proof.
  induction a as [|x a IH]; [done|]. by rewrite !append_cons, IH.
Qed.

Lemma append_nil_r (a : string) : a +:+ EmptyString = a.
Proof. induction a as [|x a IH]; [done|]. by rewrite append_cons, IH. Qed.

Lemma Substring_middle (a t b : string) : PyStr.Substring t (a +:+ t +:+ b).
Proof. by exists a, b. Qed.

Lemma Substring_append_l (a t s : string) :
  PyStr.Substring t s → PyStr.Substring t (a +:+ s).
Proof.
  intros (x & y & ->). exists (a +:+ x), y. by rewrite append_assoc.
Qed.

Lemma Substring_refl (t : string) : PyStr.Substring t t.
Proof. exists EmptyString, EmptyString. by rewrite append_nil_r. Qed.

Lemma Substring_append_r (t s b : string) :
  PyStr.Substring t s → PyStr.Substring t (s +:+ b).
Proof.
  intros (x & y & ->). exists x, (y +:+ b). by rewrite !append_assoc.
Qed.

Lemma Substring_prefix (t b : string) : PyStr.Substring t (t +:+ b).
Proof. by exists EmptyString, b. Qed.

(** Every part occurs in the joined string. *)
Lemma Substring_join (sep x : string) (parts : list string) :
  x ∈ parts → PyStr.Substring x (PyStr.join sep parts).
Proof.
  induction parts as [|p [|q rest] IH]; intros Hx.
  - by apply not_elem_of_nil in Hx.
  - apply list_elem_of_singleton in Hx as ->. apply Substring_refl.
  - apply elem_of_cons in Hx as [->|Hx].
    + change (PyStr.join sep (p :: q :: rest))
        with (p +:+ sep +:+ PyStr.join sep (q :: rest)).
      apply Substring_prefix.
    + change (PyStr.join sep (p :: q :: rest))
        with (p +:+ sep +:+ PyStr.join sep (q :: rest)).
      do 2 apply Substring_append_l. by apply IH.
Qed.

(** The printed list shows the [repr] of each of its elements. *)
Lemma Substring_repr_list (x : string) (items : list string) :
  x ∈ items → PyStr.Substring (PyStr.repr x) (PyStr.repr_list items).
Proof.
  intros Hx. unfold PyStr.repr_list.
  apply Substring_append_l, Substring_append_r, Substring_join.
  by apply (list_elem_of_fmap_2 PyStr.repr).
Qed.

Lemma repr_char_plain (c : ascii) :
  plain_char c = true → PyStr.repr_char "'" c = String c EmptyString.
Proof.
  destruct c as [[] [] [] [] [] [] [] []]; vm_compute;
    first [reflexivity | discriminate].
Qed.

Lemma plain_char_not_quote (c : ascii) :
  plain_char c = true → Ascii.eqb c "'" = false.
Proof.
  unfold plain_char. destruct (Ascii.eqb c "'"); [|done].
  by rewrite andb_false_r.
Qed.

(** A string of plain characters is printed between single quotes,
    unchanged. *)
Lemma repr_plain (s : string) :
  plain s = true → PyStr.repr s = String "'" (s +:+ "'").
Proof.
  unfold plain. intros Hs.
  assert (PyStr.contains_char "'" s = false) as Hq.
  { induction s as [|c s IH]; [done|]. cbn in Hs.
    apply andb_prop in Hs as [Hc Hs]. cbn.
    by rewrite (plain_char_not_quote c Hc), IH. }
  assert (PyStr.repr_body "'" s = s) as Hb.
  { clear Hq. induction s as [|c s IH]; [done|]. cbn in Hs.
    apply andb_prop in Hs as [Hc Hs]. cbn [PyStr.repr_body].
    by rewrite (repr_char_plain c Hc), IH. }
  unfold PyStr.repr, PyStr.repr_quote. rewrite Hq. cbn [andb].
  by rewrite Hb.
Qed.

Lemma truthy_true (s : string) : PyStr.truthy s = true ↔ s ≠ EmptyString.
Proof. destruct s; simpl; split; congruence. Qed.

Lemma strip_empty : PyStr.strip EmptyString = EmptyString.
Proof. reflexivity. Qed.

(** Characters dropped from the left are whitespace, and what is left
    does not start with whitespace. *)
Lemma lstrip_chars_spec (l : list ascii) :
  ∃ a, l = a ++ PyStr.lstrip_chars l
       ∧ forallb PyStr.isspace a = true
       ∧ ∀ c r, PyStr.lstrip_chars l = c :: r → PyStr.isspace c = false.
Proof.
  induction l as [|c l (a & E & Ha & Hh)]; simpl.
  - by exists [].
  - destruct (PyStr.isspace c) eqn:Hc.
    + exists (c :: a). simpl. rewrite Hc, Ha. split; [by f_equal|done].
    + exists []. repeat split. intros c' r [= <- _]. done.
Qed.

Lemma rstrip_chars_spec (l : list ascii) :
  ∃ b, l = PyStr.rstrip_chars l ++ b
       ∧ forallb PyStr.isspace b = true
       ∧ ∀ c r, PyStr.rstrip_chars l = r ++ [c] → PyStr.isspace c = false.
Proof.
  unfold PyStr.rstrip_chars.
  destruct (lstrip_chars_spec (rev l)) as (a & E & Ha & Hh).
  exists (rev a). split; [|split].
  - by rewrite <- rev_app_distr, <- E, rev_involutive.
  - rewrite forallb_forall in Ha. apply forallb_forall.
    intros x Hx. apply Ha. by apply in_rev.
  - intros c r Hr. apply (Hh c (rev r)).
    apply (f_equal (@rev ascii)) in Hr.
    by rewrite rev_involutive, rev_app_distr in Hr.
Qed.

(** Dropping characters on the right keeps the first character. *)
Lemma rstrip_chars_head (l : list ascii) (c : ascii) (r : list ascii) :
  PyStr.rstrip_chars l = c :: r → ∃ r', l = c :: r'.
Proof.
  destruct (rstrip_chars_spec l) as (b & E & _).
  intros Hr. rewrite Hr in E. simpl in E. eauto.
Qed.

(** [strip] removes a run of whitespace at each end and leaves a string
    that neither starts nor ends with whitespace. *)
Lemma strip_spec (s : string) :
  ∃ a b,
    list_ascii_of_string s = a ++ list_ascii_of_string (PyStr.strip s) ++ b
    ∧ forallb PyStr.isspace a = true
    ∧ forallb PyStr.isspace b = true
    ∧ (∀ c r, list_ascii_of_string (PyStr.strip s) = c :: r →
              PyStr.isspace c = false)
    ∧ (∀ c r, list_ascii_of_string (PyStr.strip s) = r ++ [c] →
              PyStr.isspace c = false).
Proof.
  unfold PyStr.strip. rewrite list_ascii_of_string_of_list_ascii.
  destruct (lstrip_chars_spec (list_ascii_of_string s)) as (a & Ea & Ha & Hh).
  destruct (rstrip_chars_spec (PyStr.lstrip_chars (list_ascii_of_string s)))
    as (b & Eb & Hb & Ht).
  exists a, b. repeat split; [| done | done | | done].
  - by rewrite <- Eb.
  - intros c r Hr. apply rstrip_chars_head in Hr as [r' Hr']. eauto.
Qed.

End strings.

(** ** The heap monad *)

Section monad.

Context {A B : Type}.

Lemma bind_Ok (m : M A) (k : A → M B) (h h' : heap) (a : A) :
  m h = (Ok a, h') → bind m k h = k a h'.
Proof. unfold bind. by intros ->. Qed.

End monad.

Lemma lookup_alloc (h : heap) (o : object) : (h ++ [o]) !! length h = Some o.
Proof. by apply list_lookup_middle. Qed.

Lemma lookup_alloc_old (h : heap) (o o' : object) (l : loc) :
  h !! l = Some o → (h ++ [o']) !! l = Some o.
Proof. intros H. by apply lookup_app_l_Some. Qed.

Lemma lookup_app_plus (h k : heap) (i : nat) :
  (h ++ k) !! (length h + i)%nat = k !! i.
Proof.
  rewrite lookup_app_r by lia. f_equal. lia.
Qed.

Lemma lookup_fresh (h : heap) : h !! length h = None.
Proof. by apply lookup_ge_None. Qed.

(** ** Validation *)

Lemma list_contains_elem_of (x : string) (items : list string) :
  list_contains x items = true ↔ x ∈ items.
Proof.
  unfold list_contains. rewrite existsb_exists. split.
  - intros (y & Hy & E). apply String.eqb_eq in E as ->.
    by apply list_elem_of_In.
  - intros H. exists x. split; [by apply list_elem_of_In|].
    apply String.eqb_refl.
Qed.

Lemma list_truthy_nonempty (items : list string) :
  list_truthy items = true ↔ items ≠ [].
Proof. destruct items; simpl; split; congruence. Qed.

Lemma validation_Ok (items : list string) (chairman : string) :
  validation items chairman = Ok tt ↔ items ≠ [] ∧ chairman ∈ items.
Proof.
  unfold validation. rewrite <- list_contains_elem_of, <- list_truthy_nonempty.
  destruct (list_truthy items), (list_contains chairman items); simpl;
    split; try done; intros [? ?]; done.
Qed.

Lemma validation_empty (chairman : string) :
  validation [] chairman
  = Raise (ValueError "primary_models must contain at least one model").
Proof. reflexivity. Qed.

Lemma validation_not_member (items : list string) (chairman : string) :
  items ≠ [] → chairman ∉ items →
  validation items chairman
  = Raise (ValueError
             ("chairman_model='" +:+ chairman +:+ "' must be included in "
              +:+ "primary_models=" +:+ PyStr.repr_list items)).
Proof.
  intros Hne Hnot. unfold validation.
  apply list_truthy_nonempty in Hne as ->. simpl.
  destruct (list_contains chairman items) eqn:E; [|done].
  by apply list_contains_elem_of in E.
Qed.

(** [__post_init__] leaves the heap alone and reports [validation]. *)
Lemma post_init_run (h : heap) (self : loc) (c : Config)
    (items : list string) :
  h !! self = Some (OConfig c) →
  h !! primary_models c = Some (OList items) →
  __post_init__ self h
  = (validation items (chairman_model c), h).
Proof.
  intros Hc Hpm. unfold __post_init__, bind, read_config, read.
  rewrite Hc, Hpm. unfold validation, raise_if, raise, ret.
  destruct (list_truthy items); simpl; [|done].
  by destruct (list_contains (chairman_model c) items).
Qed.

(** ** Construction *)

Lemma ModelConfig_init_run (e : bool) (n : string) (t : option Z) (h : heap) :
  ModelConfig_init e n t h
  = (Ok (length h),
     h ++ [OModelConfig
             {| enabled := e; model_name := n;
                timeout_sec := default 600%Z t |}]).
Proof. reflexivity. Qed.

Lemma field_default_run (arg : option loc) (e : bool) (n : string) (h : heap) :
  ∃ l h',
    field_default arg (ModelConfig_init e n None) h = (Ok l, h')
    ∧ h `prefix_of` h'
    ∧ (∀ l0, arg = Some l0 → l = l0).
Proof.
  destruct arg as [l0|]; simpl.
  - exists l0, h. repeat split; [done|]. by intros ? [= ->].
  - eexists _, _. rewrite ModelConfig_init_run. repeat split.
    + by apply prefix_app_r.
    + done.
Qed.

(** The constructor allocates the instance last and then runs
    [__post_init__] on it, whatever the arguments are. *)
Lemma Config_init_shape (h : heap) (pm : loc) (ch : option string)
    (g cl ge p gr : option loc) :
  ∃ c hf,
    h `prefix_of` hf
    ∧ primary_models c = pm
    ∧ chairman_model c = default "gpt" ch
    ∧ (∀ l, g = Some l → gpt c = l)
    ∧ (∀ l, cl = Some l → claude c = l)
    ∧ (∀ l, ge = Some l → gemini c = l)
    ∧ (∀ l, p = Some l → perplexity c = l)
    ∧ (∀ l, gr = Some l → grok c = l)
    ∧ Config_init pm ch g cl ge p gr h
      = bind (__post_init__ (length hf)) (λ _, ret (length hf))
          (hf ++ [OConfig c]).
Proof.
  unfold Config_init.
  destruct (field_default_run g true "gpt-4o" h) as (l1 & h1 & E1 & P1 & F1).
  destruct (field_default_run cl true "claude-sonnet-4-20250514" h1)
    as (l2 & h2 & E2 & P2 & F2).
  destruct (field_default_run ge false "gemini-1.5-pro" h2)
    as (l3 & h3 & E3 & P3 & F3).
  destruct (field_default_run p false "sonar-pro" h3)
    as (l4 & h4 & E4 & P4 & F4).
  destruct (field_default_run gr false "grok-2" h4)
    as (l5 & h5 & E5 & P5 & F5).
  rewrite (bind_Ok _ _ _ _ _ E1), (bind_Ok _ _ _ _ _ E2),
    (bind_Ok _ _ _ _ _ E3), (bind_Ok _ _ _ _ _ E4), (bind_Ok _ _ _ _ _ E5).
  exists {| primary_models := pm; chairman_model := default "gpt" ch;
            gpt := l1; claude := l2; gemini := l3;
            perplexity := l4; grok := l5 |}, h5.
  assert (h `prefix_of` h5) as P by (by repeat (etrans; [eassumption|])).
  repeat split; done.
Qed.

(** On a heap where [primary_models] refers to a list, the outcome of the
    constructor is that of [validation]. *)
Lemma Config_init_run (h : heap) (pm : loc) (items : list string)
    (ch : option string) (g cl ge p gr : option loc) :
  h !! pm = Some (OList items) →
  ∃ c hf,
    h `prefix_of` hf
    ∧ primary_models c = pm
    ∧ chairman_model c = default "gpt" ch
    ∧ Config_init pm ch g cl ge p gr h
      = (match validation items (default "gpt" ch) with
         | Ok _ => Ok (length hf)
         | Raise e => Raise e
         end,
         hf ++ [OConfig c]).
Proof.
  intros Hpm.
  destruct (Config_init_shape h pm ch g cl ge p gr)
    as (c & hf & P & Epm & Ech & _ & _ & _ & _ & _ & E).
  exists c, hf. repeat split; try done.
  rewrite E. unfold bind.
  rewrite (post_init_run _ _ c items).
  - rewrite Ech. by destruct (validation items (default "gpt" ch)).
  - apply lookup_alloc.
  - rewrite Epm. apply lookup_alloc_old. by eapply prefix_lookup_Some.
Qed.

(** When [__post_init__] returns normally, both rules hold of [self]. *)
Lemma post_init_Ok (h h' : heap) (self : loc) (u : unit) :
  __post_init__ self h = (Ok u, h') → h' = h ∧ valid_config h self.
Proof.
  unfold __post_init__, bind, read_config, read.
  destruct (h !! self) as [[| |c]|] eqn:Hc; try done.
  destruct (h !! primary_models c) as [[items| |]|] eqn:Hpm; try done.
  unfold raise_if, raise, ret.
  destruct (list_truthy items) eqn:Ht; simpl; [|done].
  destruct (list_contains (chairman_model c) items) eqn:Hin; simpl; [|done].
  intros [= <-]. split; [done|]. exists c, items. repeat split; try done.
  - by apply list_truthy_nonempty.
  - by apply list_contains_elem_of.
Qed.

Lemma Config_init_Ok (h h' : heap) (pm : loc) (ch : option string)
    (g cl ge p gr : option loc) (self : loc) :
  Config_init pm ch g cl ge p gr h = (Ok self, h') → valid_config h' self.
Proof.
  destruct (Config_init_shape h pm ch g cl ge p gr)
    as (c & hf & _ & _ & _ & _ & _ & _ & _ & _ & ->).
  unfold bind.
  destruct (__post_init__ (length hf) (hf ++ [OConfig c]))
    as [[u|e] h1] eqn:E; [|done].
  apply post_init_Ok in E as [-> V]. by intros [= <- <-].
Qed.

(** ** Claims about construction *)

(** C9. A [ModelConfig] built without [timeout_sec] has [timeout_sec] 600;
    built with an explicit [timeout_sec], it has exactly that value.  The
    other two fields are the arguments. *)
Theorem ModelConfig_timeout_sec (e : bool) (n : string) (h : heap) :
  (∃ l h' m,
     ModelConfig_init e n None h = (Ok l, h')
     ∧ h' !! l = Some (OModelConfig m)
     ∧ enabled m = e ∧ model_name m = n ∧ timeout_sec m = 600%Z)
  ∧ (∀ t : Z, ∃ l h' m,
       ModelConfig_init e n (Some t) h = (Ok l, h')
       ∧ h' !! l = Some (OModelConfig m)
       ∧ enabled m = e ∧ model_name m = n ∧ timeout_sec m = t).
Proof.
  split; [|intros t]; eexists _, _, _; rewrite ModelConfig_init_run;
    (split; [reflexivity|]); (split; [apply lookup_alloc|]); done.
Qed.

(** C2. For a non-empty [primary_models] list and a [chairman_model] (given,
    or the default "gpt") that occurs in it, the constructor returns a
    [Config] whose [primary_models] is the very list passed in, with its
    contents unchanged, and whose [chairman_model] is the given one. *)
Theorem Config_init_valid (h : heap) (pm : loc) (items : list string)
    (ch : option string) (g cl ge p gr : option loc) :
  h !! pm = Some (OList items) →
  items ≠ [] →
  default "gpt" ch ∈ items →
  ∃ self h' c,
    Config_init pm ch g cl ge p gr h = (Ok self, h')
    ∧ h' !! self = Some (OConfig c)
    ∧ primary_models c = pm
    ∧ chairman_model c = default "gpt" ch
    ∧ h' !! pm = Some (OList items).
Proof.
  intros Hpm Hne Hin.
  destruct (Config_init_run h pm items ch g cl ge p gr Hpm)
    as (c & hf & P & Epm & Ech & E).
  exists (length hf), (hf ++ [OConfig c]), c.
  rewrite E. replace (validation items (default "gpt" ch)) with (Ok tt)
    by (symmetry; by apply validation_Ok).
  repeat split; try done.
  - apply lookup_alloc.
  - apply lookup_alloc_old. by eapply prefix_lookup_Some.
Qed.

Lemma Config_init_valid_witness :
  ∃ self h' c,
    Config_init 0 (Some "claude") None None None None None
      [OList ["gpt"; "claude"]] = (Ok self, h')
    ∧ h' !! self = Some (OConfig c)
    ∧ primary_models c = 0%nat
    ∧ chairman_model c = "claude"
    ∧ h' !! 0%nat = Some (OList ["gpt"; "claude"]).
Proof.
  apply (Config_init_valid [OList ["gpt"; "claude"]] 0 ["gpt"; "claude"]
           (Some "claude") None None None None None).
  - reflexivity.
  - discriminate.
  - simpl. apply list_elem_of_further, list_elem_of_here.
Defined.

(** C3. Whatever [chairman_model] is, construction with an empty
    [primary_models] raises the validation error of the emptiness check:
    that check comes first, so its message is the one raised although the
    chairman is not a member of the empty list either. *)
Theorem Config_init_empty (h : heap) (pm : loc) (ch : option string)
    (g cl ge p gr : option loc) :
  h !! pm = Some (OList []) →
  (default "gpt" ch ∉ ([] : list string))
  ∧ ∃ h',
      Config_init pm ch g cl ge p gr h
      = (Raise (ValueError "primary_models must contain at least one model"),
         h').
Proof.
  intros Hpm. split; [apply not_elem_of_nil|].
  destruct (Config_init_run h pm [] ch g cl ge p gr Hpm)
    as (c & hf & _ & _ & _ & E).
  eexists. rewrite E. by rewrite validation_empty.
Qed.

Lemma Config_init_empty_witness :
  ("claude" ∉ ([] : list string))
  ∧ ∃ h',
      Config_init 0 (Some "claude") None None None None None [OList []]
      = (Raise (ValueError "primary_models must contain at least one model"),
         h').
Proof.
  apply (Config_init_empty [OList []] 0 (Some "claude")
           None None None None None).
  reflexivity.
Defined.

(** C4. For a non-empty [primary_models] that does not contain
    [chairman_model], construction raises a validation error whose message
    contains the chairman value and the whole list as Python prints it:
    the printed form of every element of the list occurs in the message,
    and an element made of plain characters occurs between single quotes
    as it is. *)
Theorem Config_init_chairman_missing (h : heap) (pm : loc)
    (items : list string) (ch : option string) (g cl ge p gr : option loc) :
  h !! pm = Some (OList items) →
  items ≠ [] →
  default "gpt" ch ∉ items →
  ∃ msg h',
    Config_init pm ch g cl ge p gr h = (Raise (ValueError msg), h')
    ∧ msg = "chairman_model='" +:+ default "gpt" ch
            +:+ "' must be included in "
            +:+ "primary_models=" +:+ PyStr.repr_list items
    ∧ PyStr.Substring (default "gpt" ch) msg
    ∧ PyStr.Substring (PyStr.repr_list items) msg
    ∧ (∀ x, x ∈ items → PyStr.Substring (PyStr.repr x) msg)
    ∧ (∀ x, x ∈ items → plain x = true →
            PyStr.Substring (String "'" (x +:+ "'")) msg).
Proof.
  intros Hpm Hne Hnot.
  destruct (Config_init_run h pm items ch g cl ge p gr Hpm)
    as (c & hf & _ & _ & _ & E).
  eexists _, _. rewrite E, (validation_not_member _ _ Hne Hnot).
  split; [reflexivity|]. split; [reflexivity|].
  assert (∀ x, x ∈ items →
            PyStr.Substring (PyStr.repr x)
              ("chairman_model='" +:+ default "gpt" ch
               +:+ "' must be included in "
               +:+ "primary_models=" +:+ PyStr.repr_list items)) as Hall.
  { intros x Hx. do 4 apply Substring_append_l.
    by apply Substring_repr_list. }
  split; [apply Substring_middle|].
  split; [do 4 apply Substring_append_l; apply Substring_refl|].
  split; [exact Hall|].
  intros x Hx Hp. rewrite <- (repr_plain x Hp). by apply Hall.
Qed.

Lemma Config_init_chairman_missing_witness :
  ∃ msg h',
    Config_init 0 (Some "gpt") None None None None None
      [OList ["claude"; "gemini"; "grok"]]
    = (Raise (ValueError msg), h')
    ∧ msg = "chairman_model='gpt' must be included in "
            +:+ "primary_models=['claude', 'gemini', 'grok']"
    ∧ PyStr.Substring "gpt" msg
    ∧ PyStr.Substring "['claude', 'gemini', 'grok']" msg
    ∧ (∀ x, x ∈ ["claude"; "gemini"; "grok"] →
            PyStr.Substring (PyStr.repr x) msg)
    ∧ (∀ x, x ∈ ["claude"; "gemini"; "grok"] → plain x = true →
            PyStr.Substring (String "'" (x +:+ "'")) msg).
Proof.
  apply (Config_init_chairman_missing [OList ["claude"; "gemini"; "grok"]]
           0 ["claude"; "gemini"; "grok"]
           (Some "gpt") None None None None None).
  - reflexivity.
  - discriminate.
  - simpl. rewrite !not_elem_of_cons.
    repeat split; first [discriminate | apply not_elem_of_nil].
Defined.

(** C10. The constructor checks non-emptiness and chairman membership and
    nothing else: on any list of strings, with duplicates or unknown
    identifiers alike, it builds a [Config] exactly when the list is
    non-empty and contains the chairman.  What it builds is a new object
    holding the given list, the given chairman and the given model
    configurations. *)
Theorem Config_init_succeeds_iff (h : heap) (pm : loc) (items : list string)
    (ch : option string) (g cl ge p gr : option loc) :
  h !! pm = Some (OList items) →
  (∃ self h' c,
     Config_init pm ch g cl ge p gr h = (Ok self, h')
     ∧ h !! self = None
     ∧ h' !! self = Some (OConfig c)
     ∧ primary_models c = pm
     ∧ chairman_model c = default "gpt" ch
     ∧ (∀ l, g = Some l → gpt c = l)
     ∧ (∀ l, cl = Some l → claude c = l)
     ∧ (∀ l, ge = Some l → gemini c = l)
     ∧ (∀ l, p = Some l → perplexity c = l)
     ∧ (∀ l, gr = Some l → grok c = l)
     ∧ h' !! pm = Some (OList items))
  ↔ items ≠ [] ∧ default "gpt" ch ∈ items.
Proof.
  intros Hpm.
  destruct (Config_init_shape h pm ch g cl ge p gr)
    as (c & hf & P & Epm & Ech & F1 & F2 & F3 & F4 & F5 & E).
  assert ((hf ++ [OConfig c]) !! pm = Some (OList items)) as Hpm'
    by (apply lookup_alloc_old; by eapply prefix_lookup_Some).
  rewrite E. unfold bind.
  rewrite (post_init_run _ _ c items), Ech;
    [|apply lookup_alloc|by rewrite Epm].
  rewrite <- validation_Ok. split.
  - intros (self & h' & c' & Hr & _).
    by destruct (validation items (default "gpt" ch)) as [[]|].
  - intros ->. exists (length hf), (hf ++ [OConfig c]), c.
    split; [done|].
    split; [apply lookup_ge_None; by apply prefix_length|].
    split; [apply lookup_alloc|]. done.
Qed.

Lemma Config_init_succeeds_iff_witness :
  let h := [ OList ["foo"; "foo"];
             OModelConfig (mkModelConfig true "gpt-4.1" 30) ] in
  ∃ self h' c,
    Config_init 0 (Some "foo") (Some 1%nat) None None None None h
    = (Ok self, h')
    ∧ h !! self = None
    ∧ h' !! self = Some (OConfig c)
    ∧ primary_models c = 0%nat
    ∧ chairman_model c = "foo"
    ∧ (∀ l, Some 1%nat = Some l → gpt c = l)
    ∧ (∀ l, None = Some l → claude c = l)
    ∧ (∀ l, None = Some l → gemini c = l)
    ∧ (∀ l, None = Some l → perplexity c = l)
    ∧ (∀ l, None = Some l → grok c = l)
    ∧ h' !! 0%nat = Some (OList ["foo"; "foo"]).
Proof.
  intros h.
  apply (Config_init_succeeds_iff h 0 ["foo"; "foo"]
           (Some "foo") (Some 1%nat) None None None None).
  - reflexivity.
  - split; [discriminate | apply list_elem_of_here].
Defined.

(** C8, as the code has it.  A [Config] the constructor has returned
    satisfies both rules when the constructor returns, because
    [__post_init__] runs inside the constructor; and it keeps satisfying
    them on every later heap in which the instance and its list are as they
    were.  Nothing re-validates after an assignment or an in-place change
    of the list. *)
Theorem Config_valid_when_constructed (h h' : heap) (pm : loc)
    (ch : option string) (g cl ge p gr : option loc) (self : loc) :
  Config_init pm ch g cl ge p gr h = (Ok self, h') →
  valid_config h' self
  ∧ ∀ h2 : heap,
      h2 !! self = h' !! self → h2 !! pm = h' !! pm → valid_config h2 self.
Proof.
  intros E. pose proof (Config_init_Ok _ _ _ _ _ _ _ _ _ _ E) as V.
  split; [done|]. intros h2 Hs Hp.
  destruct V as (c & items & Hc & Hl & Hne & Hin).
  destruct (Config_init_shape h pm ch g cl ge p gr)
    as (c' & hf & _ & Epm & _ & _ & _ & _ & _ & _ & E').
  rewrite E' in E. unfold bind in E.
  destruct (__post_init__ (length hf) (hf ++ [OConfig c']))
    as [[u|e] h1] eqn:Ep; [|done].
  apply post_init_Ok in Ep as [-> _]. injection E as <- <-.
  rewrite lookup_alloc in Hc. injection Hc as <-.
  subst pm. exists c', items. by rewrite Hs, Hp, lookup_alloc.
Qed.

Lemma Config_valid_when_constructed_witness :
  let h' :=
    (Config_init 0 None None None None None None [OList ["gpt"]]).2 in
  valid_config h' 6
  ∧ ∀ h2 : heap,
      h2 !! 6%nat = h' !! 6%nat → h2 !! 0%nat = h' !! 0%nat →
      valid_config h2 6.
Proof.
  intros h'.
  apply (Config_valid_when_constructed [OList ["gpt"]] h' 0 None
           None None None None None 6).
  reflexivity.
Defined.

(** C8, as stated, fails: the dataclass is not frozen, so after a valid
    construction [chairman_model] can be assigned a value outside
    [primary_models] and the instance no longer satisfies the rule. *)
Lemma Config_invalid_after_assignment :
  ∃ self h1 h2,
    Config_init 0 None None None None None None [OList ["gpt"]]
    = (Ok self, h1)
    ∧ setattr_chairman_model self "grok" h1 = (Ok tt, h2)
    ∧ ¬ valid_config h2 self.
Proof.
  eexists _, _, _. split; [vm_compute; reflexivity|].
  split; [vm_compute; reflexivity|].
  intros (c & items & Hc & Hl & _ & Hin).
  injection Hc as <-. injection Hl as <-.
  apply list_elem_of_singleton in Hin. discriminate.
Qed.

(** The same through the list: the instance holds the caller's list, not a
    copy, so emptying that list empties [primary_models]. *)
Lemma Config_invalid_after_clear :
  ∃ self h1 h2,
    Config_init 0 None None None None None None [OList ["gpt"]]
    = (Ok self, h1)
    ∧ list_clear 0 h1 = (Ok tt, h2)
    ∧ ¬ valid_config h2 self.
Proof.
  eexists _, _, _. split; [vm_compute; reflexivity|].
  split; [vm_compute; reflexivity|].
  intros (c & items & Hc & Hl & Hne & _).
  injection Hc as <-. injection Hl as <-. done.
Qed.

(** ** The default configuration *)

(** Every object of the default configuration is allocated by the call. *)
Lemma default_config_run (h : heap) :
  let n := length h in
  default_config h
  = (Ok (n + 6)%nat,
     h ++ [ OList ["gpt"; "claude"];
            OModelConfig default_gpt; OModelConfig default_claude;
            OModelConfig default_gemini; OModelConfig default_perplexity;
            OModelConfig default_grok;
            OConfig (mkConfig n "gpt" (n + 1) (n + 2) (n + 3) (n + 4) (n + 5)) ]).
Proof.
  intros n. unfold default_config, Config_init, field_default.
  unfold bind at 1. cbn [alloc].
  repeat (unfold bind at 1; rewrite ModelConfig_init_run).
  unfold bind at 1. cbn [alloc].
  rewrite !length_app. cbn [length default].
  rewrite <- !Nat.add_assoc. cbn [Nat.add]. fold n.
  rewrite <- !app_assoc. cbn [app].
  unfold bind.
  rewrite (post_init_run _ _
             (mkConfig n "gpt" (n + 1) (n + 2) (n + 3) (n + 4) (n + 5))
             ["gpt"; "claude"]).
  - reflexivity.
  - subst n. by rewrite lookup_app_plus.
  - subst n. cbn [primary_models]. rewrite <- (Nat.add_0_r (length h)).
    by rewrite lookup_app_plus.
Qed.

(** C7. A call of [default_config] returns a [Config] whose
    [primary_models] is [gpt, claude], whose chairman is gpt, with gpt and
    claude enabled and gemini, perplexity and grok disabled.  The instance,
    its list and its five [ModelConfig]s are all allocated by the call:
    none of them existed before, they are pairwise distinct, and a second
    call shares no object with the first. *)
Theorem default_config_new (h : heap) :
  ∃ self h' c mg mc mge mp mgr,
    default_config h = (Ok self, h')
    ∧ h' !! self = Some (OConfig c)
    ∧ h' !! primary_models c = Some (OList ["gpt"; "claude"])
    ∧ chairman_model c = "gpt"
    ∧ h' !! gpt c = Some (OModelConfig mg) ∧ enabled mg = true
    ∧ h' !! claude c = Some (OModelConfig mc) ∧ enabled mc = true
    ∧ h' !! gemini c = Some (OModelConfig mge) ∧ enabled mge = false
    ∧ h' !! perplexity c = Some (OModelConfig mp) ∧ enabled mp = false
    ∧ h' !! grok c = Some (OModelConfig mgr) ∧ enabled mgr = false
    ∧ Forall (λ l, h !! l = None) (Config_objects self c)
    ∧ NoDup (Config_objects self c)
    ∧ h `prefix_of` h'
    ∧ ∃ self2 h2 c2,
        default_config h' = (Ok self2, h2)
        ∧ h2 !! self2 = Some (OConfig c2)
        ∧ h2 !! self = Some (OConfig c)
        ∧ NoDup (Config_objects self c ++ Config_objects self2 c2).
Proof.
  pose proof (default_config_run h) as E. cbv zeta in E.
  set (n := length h) in *.
  set (c := mkConfig n "gpt" (n + 1) (n + 2) (n + 3) (n + 4) (n + 5)) in *.
  set (objs := [ OList ["gpt"; "claude"];
                 OModelConfig default_gpt; OModelConfig default_claude;
                 OModelConfig default_gemini; OModelConfig default_perplexity;
                 OModelConfig default_grok; OConfig c ]) in *.
  assert (∀ i, (h ++ objs) !! (n + i)%nat = objs !! i) as L
    by (intros i; apply lookup_app_plus).
  assert ((h ++ objs) !! n = objs !! 0%nat) as L0
    by (rewrite <- (Nat.add_0_r n) at 1; apply L).
  assert (∀ i, h !! (n + i)%nat = None) as F
    by (intros i; apply lookup_ge_None; subst n; lia).
  assert (h !! n = None) as F0 by apply lookup_fresh.
  exists (n + 6)%nat, (h ++ objs), c,
    default_gpt, default_claude, default_gemini, default_perplexity,
    default_grok.
  split; [exact E|].
  split; [by rewrite L|].
  split; [by (etrans; [exact L0|])|].
  split; [done|].
  do 5 (split; [by (etrans; [apply L|])|]; split; [done|]).
  split; [by repeat (apply Forall_cons_2; [first [apply F | apply F0]|])|].
  split; [unfold Config_objects; cbn; solve_NoDup|].
  split; [by apply prefix_app_r|].
  pose proof (default_config_run (h ++ objs)) as E2. cbv zeta in E2.
  assert (length (h ++ objs) = (n + 7)%nat) as Hlen
    by (rewrite length_app; done).
  rewrite Hlen in E2.
  eexists _, _, _. split; [exact E2|].
  split; [by rewrite <- Hlen, lookup_app_plus|].
  split.
  - apply lookup_app_l_Some. by rewrite L.
  - unfold Config_objects; cbn. solve_NoDup.
Qed.

(** ** Lookup of a model's configuration *)

Lemma getattr_run (inherited : loc → string → option value) (h : heap)
    (self : loc) (c : Config) (name : string) :
  h !! self = Some (OConfig c) →
  getattr inherited self name h
  = (match assoc name (instance_dict c) with
     | Some v => Ok v
     | None =>
         match assoc name (class_dict self) with
         | Some v => Ok v
         | None =>
             match inherited self name with
             | Some v => Ok v
             | None =>
                 Raise (AttributeError
                          ("'Config' object has no attribute '"
                           +:+ name +:+ "'"))
             end
         end
     end, h).
Proof.
  intros Hc. unfold getattr, bind, read_config. rewrite Hc.
  destruct (assoc name (instance_dict c)); [done|].
  destruct (assoc name (class_dict self)); [done|].
  by destruct (inherited self name).
Qed.

(** The method returns whatever attribute has the given name and raises
    only when there is none. *)
Lemma get_model_config_run (inherited : loc → string → option value)
    (h : heap) (self : loc) (c : Config) (model_id : string) :
  h !! self = Some (OConfig c) →
  get_model_config inherited self model_id h
  = (match assoc model_id (instance_dict c) with
     | Some v => Ok v
     | None =>
         match assoc model_id (class_dict self) with
         | Some v => Ok v
         | None =>
             match inherited self model_id with
             | Some v => Ok v
             | None =>
                 Raise (KeyError
                          ("Unknown model_id: '" +:+ model_id +:+ "'"))
             end
         end
     end, h).
Proof.
  intros Hc. unfold get_model_config, bind, hasattr.
  rewrite (getattr_run inherited h self c) by done.
  destruct (assoc model_id (instance_dict c)) as [v|] eqn:Hi.
  - cbn. rewrite (getattr_run inherited h self c) by done. by rewrite Hi.
  - destruct (assoc model_id (class_dict self)) as [v|] eqn:Hk.
    + cbn. rewrite (getattr_run inherited h self c) by done.
      by rewrite Hi, Hk.
    + destruct (inherited self model_id) as [v|] eqn:Hn; [|done].
      cbn. rewrite (getattr_run inherited h self c) by done.
      by rewrite Hi, Hk, Hn.
Qed.

(** X1. For the five identifiers the method returns the reference stored in
    the field of that name, that is, the very [ModelConfig] instance. *)
Lemma get_model_config_known (inherited : loc → string → option value)
    (h : heap) (self : loc) (c : Config) :
  h !! self = Some (OConfig c) →
  get_model_config inherited self "gpt" h = (Ok (VRef (gpt c)), h)
  ∧ get_model_config inherited self "claude" h = (Ok (VRef (claude c)), h)
  ∧ get_model_config inherited self "gemini" h = (Ok (VRef (gemini c)), h)
  ∧ get_model_config inherited self "perplexity" h
    = (Ok (VRef (perplexity c)), h)
  ∧ get_model_config inherited self "grok" h = (Ok (VRef (grok c)), h).
Proof.
  intros Hc. by rewrite !(get_model_config_run inherited h self c) by done.
Qed.

(** A name that is no attribute of the instance is rejected with the
    lookup error that names it. *)
Lemma get_model_config_no_attribute
    (inherited : loc → string → option value) (h : heap) (self : loc)
    (c : Config) (model_id : string) :
  h !! self = Some (OConfig c) →
  assoc model_id (instance_dict c) = None →
  assoc model_id (class_dict self) = None →
  inherited self model_id = None →
  get_model_config inherited self model_id h
  = (Raise (KeyError ("Unknown model_id: '" +:+ model_id +:+ "'")), h).
Proof.
  intros Hc Hi Hk Hn.
  rewrite (get_model_config_run inherited h self c) by done.
  by rewrite Hi, Hk, Hn.
Qed.

Example get_model_config_unknown :
  ∃ self h,
    default_config [] = (Ok self, h)
    ∧ get_model_config sample_inherited self "unknown" h
      = (Raise (KeyError "Unknown model_id: 'unknown'"), h).
Proof. eexists _, _. split; reflexivity. Qed.

(** The docstring of the class comes back for "__doc__". *)
Example get_model_config_doc :
  ∃ self h,
    default_config [] = (Ok self, h)
    ∧ get_model_config sample_inherited self "__doc__" h
      = (Ok (VStr "Application configuration with all model configs."), h).
Proof. eexists _, _. split; reflexivity. Qed.

(** C1, at an input where the code departs from it.  "primary_models" is
    not one of the five identifiers, yet it is an attribute of every
    [Config], so [hasattr] holds and the method returns the list of primary
    models instead of raising; likewise "chairman_model" yields a string. *)
Theorem get_model_config_other_attribute
    (inherited : loc → string → option value) :
  ∃ self h pm,
    default_config [] = (Ok self, h)
    ∧ ("primary_models" ∉ known_ids)
    ∧ get_model_config inherited self "primary_models" h
      = (Ok (VRef pm), h)
    ∧ h !! pm = Some (OList ["gpt"; "claude"])
    ∧ get_model_config inherited self "chairman_model" h
      = (Ok (VStr "gpt"), h).
Proof.
  eexists _, _, _. split; [reflexivity|]. split.
  - unfold known_ids. rewrite !not_elem_of_cons.
    repeat split; first [discriminate | apply not_elem_of_nil].
  - repeat split; reflexivity.
Qed.

(** ** Credentials *)

Lemma lstrip_chars_fixed (l : list ascii) :
  (∀ c r, l = c :: r → PyStr.isspace c = false) →
  PyStr.lstrip_chars l = l.
Proof.
  destruct l as [|c l]; [done|]. intros H. simpl.
  by rewrite (H c l eq_refl).
Qed.

Lemma rstrip_chars_fixed (l : list ascii) :
  (∀ c r, l = r ++ [c] → PyStr.isspace c = false) →
  PyStr.rstrip_chars l = l.
Proof.
  intros H. unfold PyStr.rstrip_chars.
  rewrite lstrip_chars_fixed; [apply rev_involutive|].
  intros c r Hr. apply (H c (rev r)).
  apply (f_equal (@rev ascii)) in Hr.
  by rewrite rev_involutive in Hr.
Qed.

(** A string with no whitespace at either end is its own [strip]. *)
Lemma strip_fixed (s : string) :
  (∀ c r, list_ascii_of_string s = c :: r → PyStr.isspace c = false) →
  (∀ c r, list_ascii_of_string s = r ++ [c] → PyStr.isspace c = false) →
  PyStr.strip s = s.
Proof.
  intros Hh Ht. unfold PyStr.strip.
  rewrite (lstrip_chars_fixed _ Hh), (rstrip_chars_fixed _ Ht).
  apply string_of_list_ascii_of_string.
Qed.

Lemma strip_idemp (s : string) : PyStr.strip (PyStr.strip s) = PyStr.strip s.
Proof.
  destruct (strip_spec s) as (a & b & _ & _ & _ & Hh & Ht).
  by apply strip_fixed.
Qed.

(** The first test of the loop body is subsumed by the second. *)
Lemma api_key_strip (environ : gmap string string) (env_var : string) :
  api_key environ env_var
  = raw ← environ !! env_var;
    if PyStr.truthy (PyStr.strip raw) then Some (PyStr.strip raw) else None.
Proof.
  unfold api_key. destruct (environ !! env_var) as [raw|]; [|done].
  cbn. by destruct raw.
Qed.

Lemma lstrip_chars_app_ws (a l : list ascii) :
  forallb PyStr.isspace a = true →
  PyStr.lstrip_chars (a ++ l) = PyStr.lstrip_chars l.
Proof.
  induction a as [|c a IH]; [done|]. cbn.
  intros [Hc Ha]%andb_prop. rewrite Hc. by apply IH.
Qed.

(** Whitespace around a core that has none at its ends is what [strip]
    removes. *)
Lemma strip_sandwich (raw v : string) (a b : list ascii) :
  list_ascii_of_string raw = a ++ list_ascii_of_string v ++ b →
  forallb PyStr.isspace a = true →
  forallb PyStr.isspace b = true →
  v ≠ EmptyString →
  (∀ c r, list_ascii_of_string v = c :: r → PyStr.isspace c = false) →
  (∀ c r, list_ascii_of_string v = r ++ [c] → PyStr.isspace c = false) →
  PyStr.strip raw = v.
Proof.
  intros E Ha Hb Hne Hh Ht. unfold PyStr.strip. rewrite E.
  rewrite lstrip_chars_app_ws by done.
  set (lv := list_ascii_of_string v) in *.
  assert (lv ≠ []) as Hlv.
  { subst lv. destruct v; [done|discriminate]. }
  rewrite lstrip_chars_fixed.
  2:{ intros c r Hr. destruct lv as [|c' lv']; [done|].
      injection Hr as <- _. by eapply Hh. }
  unfold PyStr.rstrip_chars. rewrite rev_app_distr.
  rewrite lstrip_chars_app_ws.
  2:{ rewrite forallb_forall in Hb. apply forallb_forall.
      intros x Hx. apply Hb. by apply in_rev. }
  rewrite lstrip_chars_fixed.
  - rewrite rev_involutive. subst lv. apply string_of_list_ascii_of_string.
  - intros c r Hr. apply (Ht c (rev r)).
    apply (f_equal (@rev ascii)) in Hr.
    by rewrite rev_involutive in Hr.
Qed.

(** [strip] gives the empty string exactly on strings of whitespace. *)
Lemma strip_blank (raw : string) :
  PyStr.strip raw = EmptyString
  ↔ forallb PyStr.isspace (list_ascii_of_string raw) = true.
Proof.
  split.
  - intros E. destruct (strip_spec raw) as (a & b & Er & Ha & Hb & _).
    rewrite E in Er. cbn in Er. rewrite Er, forallb_app. by rewrite Ha, Hb.
  - intros Hall. unfold PyStr.strip.
    rewrite <- (app_nil_r (list_ascii_of_string raw)).
    by rewrite lstrip_chars_app_ws.
Qed.

Lemma api_key_Some (environ : gmap string string) (env_var v : string) :
  api_key environ env_var = Some v
  ↔ ∃ raw, environ !! env_var = Some raw
           ∧ v = PyStr.strip raw ∧ v ≠ EmptyString.
Proof.
  unfold api_key. split.
  - destruct (environ !! env_var) as [raw|]; [|done].
    destruct (PyStr.truthy raw); [|done].
    destruct (PyStr.truthy (PyStr.strip raw)) eqn:T; [|done].
    intros [= <-]. exists raw. by apply truthy_true in T.
  - intros (raw & -> & -> & Hne). apply truthy_true in Hne as T.
    rewrite T. destruct raw; [done|]. done.
Qed.

Lemma assoc_None {V} (k : string) (d : list (string * V)) :
  k ∉ d.*1 → assoc k d = None.
Proof.
  induction d as [|[k' v] d IH]; simpl; [done|].
  rewrite not_elem_of_cons. intros [Hne Hd].
  apply String.eqb_neq in Hne as ->. by apply IH.
Qed.

Lemma assoc_Some_elem_of {V} (k : string) (d : list (string * V)) (v : V) :
  assoc k d = Some v → k ∈ d.*1.
Proof.
  induction d as [|[k' v'] d IH]; simpl; [done|].
  destruct (String.eqb_spec k k') as [->|Hne].
  - intros _. apply list_elem_of_here.
  - intros H. apply list_elem_of_further. by apply IH.
Qed.

Lemma load_api_keys_step_lookup (environ keys : gmap string string)
    (model_id env_var k : string) :
  load_api_keys_step environ keys (model_id, env_var) !! k
  = if decide (model_id = k)
    then match api_key environ env_var with
         | Some v => Some v
         | None => keys !! k
         end
    else keys !! k.
Proof.
  unfold load_api_keys_step, api_key.
  destruct (environ !! env_var) as [raw|]; [|by case_decide].
  destruct (PyStr.truthy raw); [|by case_decide].
  destruct (PyStr.truthy (PyStr.strip raw)); [|by case_decide].
  case_decide as E.
  - subst. apply lookup_insert_eq.
  - by apply lookup_insert_ne.
Qed.

(** The loop over a table without repeated keys. *)
Lemma load_api_keys_loop (environ : gmap string string)
    (table : list (string * string)) (keys : gmap string string)
    (k : string) :
  NoDup table.*1 →
  foldl (load_api_keys_step environ) keys table !! k
  = match assoc k table ≫= api_key environ with
    | Some v => Some v
    | None => keys !! k
    end.
Proof.
  revert keys. induction table as [|[id var] table IH]; intros keys ND.
  - done.
  - apply NoDup_cons in ND as [Hid ND]. cbn [foldl].
    rewrite IH by done. rewrite load_api_keys_step_lookup.
    cbn [assoc]. destruct (String.eqb_spec k id) as [->|Hne].
    + rewrite (assoc_None id table) by done. cbn.
      rewrite decide_True by done. by destruct (api_key environ var).
    + by rewrite decide_False by done.
Qed.

Lemma API_KEY_ENV_VARS_NoDup : NoDup _API_KEY_ENV_VARS.*1.
Proof.
  cbn. repeat (apply NoDup_cons_2;
    [rewrite ?not_elem_of_cons; repeat split;
     first [discriminate | apply not_elem_of_nil] |]).
  apply NoDup_nil_2.
Qed.

Lemma API_KEY_ENV_VARS_keys : _API_KEY_ENV_VARS.*1 = known_ids.
Proof. reflexivity. Qed.

Lemma load_api_keys_lookup (environ : gmap string string) (k : string) :
  load_api_keys environ !! k
  = assoc k _API_KEY_ENV_VARS ≫= api_key environ.
Proof.
  unfold load_api_keys.
  rewrite load_api_keys_loop by apply API_KEY_ENV_VARS_NoDup.
  by destruct (assoc k _API_KEY_ENV_VARS ≫= api_key environ).
Qed.

Lemma API_KEY_ENV_VARS_pairs (model_id env_var : string) :
  (model_id, env_var)
    ∈ [ ("gpt", "OPENAI_API_KEY"); ("claude", "ANTHROPIC_API_KEY");
        ("gemini", "GOOGLE_API_KEY"); ("perplexity", "PERPLEXITY_API_KEY");
        ("grok", "GROK_API_KEY") ] →
  assoc model_id _API_KEY_ENV_VARS = Some env_var.
Proof.
  rewrite !elem_of_cons, elem_of_nil.
  intros [[= -> ->]|[[= -> ->]|[[= -> ->]|[[= -> ->]|[[= -> ->]|[]]]]]];
    reflexivity.
Qed.

(** The entry of an identifier, from the value of its variable. *)
Lemma load_api_keys_at (environ : gmap string string)
    (model_id env_var : string) :
  assoc model_id _API_KEY_ENV_VARS = Some env_var →
  load_api_keys environ !! model_id
  = raw ← environ !! env_var;
    if PyStr.truthy (PyStr.strip raw) then Some (PyStr.strip raw) else None.
Proof.
  intros Ha. rewrite load_api_keys_lookup, Ha. cbn. apply api_key_strip.
Qed.

Lemma load_api_keys_present (environ : gmap string string)
    (model_id env_var v : string) :
  assoc model_id _API_KEY_ENV_VARS = Some env_var →
  load_api_keys environ !! model_id = Some v
  ↔ ∃ raw a b,
      environ !! env_var = Some raw
      ∧ list_ascii_of_string raw = a ++ list_ascii_of_string v ++ b
      ∧ forallb PyStr.isspace a = true
      ∧ forallb PyStr.isspace b = true
      ∧ v ≠ EmptyString
      ∧ (∀ c r, list_ascii_of_string v = c :: r → PyStr.isspace c = false)
      ∧ (∀ c r, list_ascii_of_string v = r ++ [c] →
                PyStr.isspace c = false).
Proof.
  intros Ha. rewrite (load_api_keys_at environ model_id env_var Ha). split.
  - destruct (environ !! env_var) as [raw|]; [|done]. cbn.
    destruct (PyStr.truthy (PyStr.strip raw)) eqn:T; [|done].
    intros [= <-]. apply truthy_true in T.
    destruct (strip_spec raw) as (a & b & Er & Hwa & Hwb & Hh & Ht).
    exists raw, a, b. done.
  - intros (raw & a & b & -> & Er & Hwa & Hwb & Hne & Hh & Ht). cbn.
    rewrite (strip_sandwich raw v a b) by done.
    by apply truthy_true in Hne as ->.
Qed.

Lemma load_api_keys_absent (environ : gmap string string)
    (model_id env_var : string) :
  assoc model_id _API_KEY_ENV_VARS = Some env_var →
  load_api_keys environ !! model_id = None
  ↔ ∀ raw, environ !! env_var = Some raw →
           forallb PyStr.isspace (list_ascii_of_string raw) = true.
Proof.
  intros Ha. rewrite (load_api_keys_at environ model_id env_var Ha). split.
  - intros Hn raw Hraw. rewrite Hraw in Hn. cbn in Hn.
    apply strip_blank. by destruct (PyStr.strip raw).
  - intros Hall. destruct (environ !! env_var) as [raw|]; [|done]. cbn.
    by rewrite (proj2 (strip_blank raw) (Hall raw eq_refl)).
Qed.

(** C5. The mapping returned by [load_api_keys] has an entry for an
    identifier exactly when the identifier is in the table, its variable is
    set, and the value stripped of surrounding whitespace is non-empty; the
    entry is that stripped value.  Only the five identifiers occur as keys
    and no entry is the empty string.  Spelled out for the five pairs of
    identifier and variable: the entry is what is left of the value of the
    variable after a run of whitespace is taken off each end, it is not
    empty and has no whitespace at either end; and there is no entry
    exactly when the variable is unset or holds whitespace only (the empty
    value included). *)
Theorem load_api_keys_entries (environ : gmap string string) :
  (∀ model_id v,
     load_api_keys environ !! model_id = Some v
     ↔ ∃ env_var raw,
         assoc model_id _API_KEY_ENV_VARS = Some env_var
         ∧ environ !! env_var = Some raw
         ∧ v = PyStr.strip raw
         ∧ v ≠ EmptyString)
  ∧ (∀ model_id,
       is_Some (load_api_keys environ !! model_id) → model_id ∈ known_ids)
  ∧ (∀ model_id, load_api_keys environ !! model_id ≠ Some EmptyString)
  ∧ (∀ model_id env_var,
       (model_id, env_var)
         ∈ [ ("gpt", "OPENAI_API_KEY"); ("claude", "ANTHROPIC_API_KEY");
             ("gemini", "GOOGLE_API_KEY");
             ("perplexity", "PERPLEXITY_API_KEY");
             ("grok", "GROK_API_KEY") ] →
       (∀ v,
          load_api_keys environ !! model_id = Some v
          ↔ ∃ raw a b,
              environ !! env_var = Some raw
              ∧ list_ascii_of_string raw = a ++ list_ascii_of_string v ++ b
              ∧ forallb PyStr.isspace a = true
              ∧ forallb PyStr.isspace b = true
              ∧ v ≠ EmptyString
              ∧ (∀ c r, list_ascii_of_string v = c :: r →
                        PyStr.isspace c = false)
              ∧ (∀ c r, list_ascii_of_string v = r ++ [c] →
                        PyStr.isspace c = false))
       ∧ (load_api_keys environ !! model_id = None
          ↔ ∀ raw, environ !! env_var = Some raw →
                   forallb PyStr.isspace (list_ascii_of_string raw) = true))
  ∧ (∀ model_id,
       model_id ∉ ["gpt"; "claude"; "gemini"; "perplexity"; "grok"] →
       load_api_keys environ !! model_id = None).
Proof.
  assert (∀ model_id v,
     load_api_keys environ !! model_id = Some v
     ↔ ∃ env_var raw,
         assoc model_id _API_KEY_ENV_VARS = Some env_var
         ∧ environ !! env_var = Some raw
         ∧ v = PyStr.strip raw
         ∧ v ≠ EmptyString) as Hmain.
  { intros model_id v. rewrite load_api_keys_lookup. split.
    - destruct (assoc model_id _API_KEY_ENV_VARS) as [env_var|] eqn:Ha;
        [|done]. cbn. intros (raw & ? & ? & ?)%api_key_Some. eauto 6.
    - intros (env_var & raw & -> & Hraw). cbn. apply api_key_Some. eauto. }
  split; [exact Hmain|]. split; [|split; [|split]].
  - intros model_id [v (env_var & _ & Ha & _)%Hmain].
    rewrite <- API_KEY_ENV_VARS_keys. by eapply assoc_Some_elem_of.
  - intros model_id (_ & _ & _ & _ & _ & Hne)%Hmain. done.
  - intros model_id env_var Ha%API_KEY_ENV_VARS_pairs. split.
    + intros v. by apply load_api_keys_present.
    + by apply load_api_keys_absent.
  - intros model_id Hnot. rewrite load_api_keys_lookup.
    by rewrite (assoc_None model_id _API_KEY_ENV_VARS).
Qed.

Lemma load_api_keys_entries_witness :
  let environ : gmap string string :=
    <[ "OPENAI_API_KEY" := "  sk-test " ]>
      (<[ "ANTHROPIC_API_KEY" := "   " ]> {[ "HOME" := "/root" ]}) in
  load_api_keys environ !! "gpt" = Some "sk-test"
  ∧ load_api_keys environ !! "claude" = None
  ∧ load_api_keys environ !! "HOME" = None.
Proof.
  intros environ.
  destruct (load_api_keys_entries environ) as (_ & _ & _ & Hpairs & Hother).
  split; [|split].
  - apply (proj1 (Hpairs "gpt" "OPENAI_API_KEY" (list_elem_of_here _ _))).
    exists "  sk-test ", [" "; " "]%char, [" "]%char.
    split; [by vm_compute|]. split; [reflexivity|].
    split; [reflexivity|]. split; [reflexivity|].
    split; [discriminate|]. split.
    + intros c r [= <- _]. reflexivity.
    + intros c r Hr. apply (f_equal (@rev ascii)) in Hr.
      rewrite rev_app_distr in Hr. cbn in Hr. injection Hr as <- _.
      reflexivity.
  - apply (proj2 (Hpairs "claude" "ANTHROPIC_API_KEY"
                    (list_elem_of_further _ _ _ (list_elem_of_here _ _)))).
    intros raw Hraw. vm_compute in Hraw. injection Hraw as <-. reflexivity.
  - apply Hother. rewrite !not_elem_of_cons.
    repeat split; first [discriminate | apply not_elem_of_nil].
Defined.

(** The cases of the test suite. *)
Example load_api_keys_no_env : load_api_keys ∅ = ∅.
Proof. reflexivity. Qed.

Example load_api_keys_single :
  load_api_keys {[ "OPENAI_API_KEY" := "sk-test123" ]}
  = {[ "gpt" := "sk-test123" ]}.
Proof. by vm_compute. Qed.

Example load_api_keys_whitespace_only :
  load_api_keys
    (<[ "OPENAI_API_KEY" := "   " ]> {[ "ANTHROPIC_API_KEY" := "sk-valid" ]})
  = {[ "claude" := "sk-valid" ]}.
Proof. by vm_compute. Qed.

Example load_api_keys_empty_value :
  load_api_keys
    (<[ "OPENAI_API_KEY" := EmptyString ]>
       {[ "ANTHROPIC_API_KEY" := "sk-valid" ]})
  = {[ "claude" := "sk-valid" ]}.
Proof. by vm_compute. Qed.

Example load_api_keys_strips :
  load_api_keys {[ "OPENAI_API_KEY" := "  sk-test  " ]}
  = {[ "gpt" := "sk-test" ]}.
Proof. by vm_compute. Qed.

(** C6. [get_env_var_name] returns the literal variable name of each of
    the five identifiers and raises a lookup error, carrying the
    identifier, for every other one. *)
Theorem get_env_var_name_table :
  get_env_var_name "gpt" = Ok "OPENAI_API_KEY"
  ∧ get_env_var_name "claude" = Ok "ANTHROPIC_API_KEY"
  ∧ get_env_var_name "gemini" = Ok "GOOGLE_API_KEY"
  ∧ get_env_var_name "perplexity" = Ok "PERPLEXITY_API_KEY"
  ∧ get_env_var_name "grok" = Ok "GROK_API_KEY"
  ∧ ∀ model_id,
      model_id ∉ known_ids →
      get_env_var_name model_id = Raise (KeyError model_id).
Proof.
  do 5 (split; [reflexivity|]).
  intros model_id Hnot. unfold get_env_var_name.
  rewrite assoc_None; [done|]. by rewrite API_KEY_ENV_VARS_keys.
Qed.

Lemma get_env_var_name_table_witness :
  get_env_var_name "unknown" = Raise (KeyError "unknown").
Proof.
  apply (proj2 (proj2 (proj2 (proj2 (proj2 get_env_var_name_table))))).
  unfold known_ids. rewrite !not_elem_of_cons.
  repeat split; first [discriminate | apply not_elem_of_nil].
Defined.

(** * Further properties *)

(** ** The table of variable names *)

Lemma assoc_Some_pair {V} (k : string) (d : list (string * V)) (v : V) :
  assoc k d = Some v → (k, v) ∈ d.
Proof.
  induction d as [|[k' v'] d IH]; simpl; [done|].
  destruct (String.eqb_spec k k') as [->|Hne].
  - intros [= ->]. apply list_elem_of_here.
  - intros H. apply list_elem_of_further. by apply IH.
Qed.

Lemma assoc_inj {V} (a b : string) (d : list (string * V)) (v : V) :
  NoDup d.*2 → assoc a d = Some v → assoc b d = Some v → a = b.
Proof.
  induction d as [|[k w] d IH]; simpl; [done|].
  intros [Hw ND]%NoDup_cons.
  destruct (String.eqb_spec a k) as [->|Ha],
           (String.eqb_spec b k) as [->|Hb]; try done.
  - intros [= ->] Hb'%assoc_Some_pair. destruct Hw.
    by apply (list_elem_of_fmap_2 snd _ (b, v)).
  - intros Ha'%assoc_Some_pair [= ->]. destruct Hw.
    by apply (list_elem_of_fmap_2 snd _ (a, v)).
  - by apply IH.
Qed.

Lemma API_KEY_ENV_VARS_values_NoDup : NoDup _API_KEY_ENV_VARS.*2.
Proof.
  cbn. repeat (apply NoDup_cons_2;
    [rewrite ?not_elem_of_cons; repeat split;
     first [discriminate | apply not_elem_of_nil] |]).
  apply NoDup_nil_2.
Qed.

Lemma API_KEY_ENV_VARS_inj (a b env_var : string) :
  assoc a _API_KEY_ENV_VARS = Some env_var →
  assoc b _API_KEY_ENV_VARS = Some env_var →
  a = b.
Proof. apply assoc_inj, API_KEY_ENV_VARS_values_NoDup. Qed.

(** X8. No two model identifiers share an environment variable. *)
Theorem get_env_var_name_inj (a b env_var : string) :
  get_env_var_name a = Ok env_var →
  get_env_var_name b = Ok env_var →
  a = b.
Proof.
  unfold get_env_var_name.
  destruct (assoc a _API_KEY_ENV_VARS) as [va|] eqn:Ea; [|done].
  destruct (assoc b _API_KEY_ENV_VARS) as [vb|] eqn:Eb; [|done].
  intros [= ->] [= ->]. by apply (API_KEY_ENV_VARS_inj a b env_var).
Qed.

Lemma get_env_var_name_inj_witness : "grok" = "grok".
Proof.
  apply (get_env_var_name_inj "grok" "grok" "GROK_API_KEY"); reflexivity.
Defined.

Lemma get_env_var_name_Ok (model_id env_var : string) :
  get_env_var_name model_id = Ok env_var
  ↔ assoc model_id _API_KEY_ENV_VARS = Some env_var.
Proof.
  unfold get_env_var_name.
  destruct (assoc model_id _API_KEY_ENV_VARS); split; congruence.
Qed.

(** ** The loader *)

(** X9. The result of [load_api_keys] depends on the environment only through
    the five variables of the table: two environments that agree on the
    variable of every identifier give the same mapping. *)
Theorem load_api_keys_only_table_vars (env1 env2 : gmap string string) :
  (∀ model_id env_var,
     get_env_var_name model_id = Ok env_var →
     env1 !! env_var = env2 !! env_var) →
  load_api_keys env1 = load_api_keys env2.
Proof.
  intros Hagree. apply map_eq. intros k. rewrite !load_api_keys_lookup.
  destruct (assoc k _API_KEY_ENV_VARS) as [env_var|] eqn:Ea; [|done].
  cbn. unfold api_key. rewrite (Hagree k env_var); [done|].
  by apply get_env_var_name_Ok.
Qed.

Lemma load_api_keys_only_table_vars_witness :
  load_api_keys {[ "OPENAI_API_KEY" := "sk-test" ]}
  = load_api_keys
      (<[ "HOME" := "/root" ]> {[ "OPENAI_API_KEY" := "sk-test" ]}).
Proof.
  apply load_api_keys_only_table_vars.
  intros model_id env_var Hv. apply get_env_var_name_Ok in Hv.
  apply assoc_Some_pair in Hv. unfold _API_KEY_ENV_VARS in Hv.
  rewrite !elem_of_cons, elem_of_nil in Hv.
  destruct Hv as [[= -> ->]|[[= -> ->]|[[= -> ->]|[[= -> ->]|[[= -> ->]|[]]]]]];
    by vm_compute.
Defined.

(** X10. Every key returned by [load_api_keys] is non-empty and neither starts
    nor ends with whitespace. *)
Theorem load_api_keys_values_stripped (environ : gmap string string)
    (model_id v : string) :
  load_api_keys environ !! model_id = Some v →
  v ≠ EmptyString
  ∧ (∀ c r, list_ascii_of_string v = c :: r → PyStr.isspace c = false)
  ∧ (∀ c r, list_ascii_of_string v = r ++ [c] → PyStr.isspace c = false).
Proof.
  rewrite load_api_keys_lookup.
  destruct (assoc model_id _API_KEY_ENV_VARS) as [env_var|]; [|done].
  cbn. intros (raw & _ & -> & Hne)%api_key_Some. split; [done|].
  destruct (strip_spec raw) as (a & b & _ & _ & _ & Hh & Ht). done.
Qed.

Lemma load_api_keys_values_stripped_witness :
  "sk-test" ≠ EmptyString
  ∧ (∀ c r, list_ascii_of_string "sk-test" = c :: r →
            PyStr.isspace c = false)
  ∧ (∀ c r, list_ascii_of_string "sk-test" = r ++ [c] →
            PyStr.isspace c = false).
Proof.
  apply (load_api_keys_values_stripped
           {[ "OPENAI_API_KEY" := "  sk-test  " ]} "gpt" "sk-test").
  by vm_compute.
Defined.

(** X11. A value that is non-empty and has no whitespace at either end is
    returned exactly as it stands in the environment. *)
Theorem load_api_keys_clean_value (environ : gmap string string)
    (model_id env_var raw : string) :
  get_env_var_name model_id = Ok env_var →
  environ !! env_var = Some raw →
  raw ≠ EmptyString →
  (∀ c r, list_ascii_of_string raw = c :: r → PyStr.isspace c = false) →
  (∀ c r, list_ascii_of_string raw = r ++ [c] → PyStr.isspace c = false) →
  load_api_keys environ !! model_id = Some raw.
Proof.
  intros Hv%get_env_var_name_Ok Hraw Hne Hh Ht.
  rewrite load_api_keys_lookup, Hv. cbn.
  apply api_key_Some. exists raw. by rewrite strip_fixed.
Qed.

Lemma load_api_keys_clean_value_witness :
  load_api_keys {[ "ANTHROPIC_API_KEY" := "sk" ]} !! "claude" = Some "sk".
Proof.
  apply (load_api_keys_clean_value _ "claude" "ANTHROPIC_API_KEY" "sk").
  - reflexivity.
  - by vm_compute.
  - discriminate.
  - intros c r [= <- _]. reflexivity.
  - intros c r Hr. destruct r as [|x [|y [|z r]]]; try discriminate Hr.
    injection Hr as _ <-. reflexivity.
Defined.

(** X12. Whitespace around a value does not matter: an environment holding the
    stripped value gives the same mapping as one holding the raw value. *)
Theorem load_api_keys_strip_insensitive (environ : gmap string string)
    (env_var raw : string) :
  load_api_keys (<[env_var := PyStr.strip raw]> environ)
  = load_api_keys (<[env_var := raw]> environ).
Proof.
  apply map_eq. intros k. rewrite !load_api_keys_lookup.
  destruct (assoc k _API_KEY_ENV_VARS) as [var|]; [|done].
  cbn. rewrite !api_key_strip.
  destruct (decide (env_var = var)) as [->|Hne].
  - rewrite !lookup_insert_eq. cbn. by rewrite strip_idemp.
  - by rewrite !lookup_insert_ne.
Qed.

(** X13. Setting the variable of one identifier affects the entry of that
    identifier only: the entry becomes the stripped value, or disappears
    when the value is blank, and every other entry is as before. *)
Theorem load_api_keys_set_var (environ : gmap string string)
    (model_id env_var raw : string) :
  get_env_var_name model_id = Ok env_var →
  load_api_keys (<[env_var := raw]> environ)
  = if PyStr.truthy (PyStr.strip raw)
    then <[model_id := PyStr.strip raw]> (load_api_keys environ)
    else delete model_id (load_api_keys environ).
Proof.
  intros Hv. apply map_eq. intros k.
  assert (load_api_keys (<[env_var := raw]> environ) !! k
          = if decide (model_id = k)
            then (if PyStr.truthy (PyStr.strip raw)
                  then Some (PyStr.strip raw) else None)
            else load_api_keys environ !! k) as ->.
  { rewrite !load_api_keys_lookup. case_decide as Hk.
    - subst k. apply get_env_var_name_Ok in Hv as ->. cbn.
      by rewrite api_key_strip, lookup_insert_eq.
    - destruct (assoc k _API_KEY_ENV_VARS) as [var|] eqn:Ek; [|done].
      cbn. rewrite !api_key_strip, lookup_insert_ne; [done|].
      intros <-. apply Hk.
      apply (API_KEY_ENV_VARS_inj model_id k env_var); [|done].
      by apply get_env_var_name_Ok. }
  destruct (PyStr.truthy (PyStr.strip raw)).
  - by rewrite lookup_insert.
  - by rewrite lookup_delete.
Qed.

Lemma load_api_keys_set_var_witness :
  load_api_keys
    (<[ "GROK_API_KEY" := " xai-1 " ]> {[ "OPENAI_API_KEY" := "sk-test" ]})
  = <[ "grok" := "xai-1" ]>
      (load_api_keys {[ "OPENAI_API_KEY" := "sk-test" ]}).
Proof.
  apply (load_api_keys_set_var {[ "OPENAI_API_KEY" := "sk-test" ]}
           "grok" "GROK_API_KEY" " xai-1 ").
  reflexivity.
Defined.

(** X14. Unsetting the variable of an identifier removes that identifier's
    entry and nothing else. *)
Theorem load_api_keys_unset_var (environ : gmap string string)
    (model_id env_var : string) :
  get_env_var_name model_id = Ok env_var →
  load_api_keys (delete env_var environ)
  = delete model_id (load_api_keys environ).
Proof.
  intros Hv. apply map_eq. intros k. rewrite lookup_delete.
  rewrite !load_api_keys_lookup. case_decide as Hk.
  - subst k. apply get_env_var_name_Ok in Hv as ->. cbn.
    by rewrite api_key_strip, lookup_delete_eq.
  - destruct (assoc k _API_KEY_ENV_VARS) as [var|] eqn:Ek; [|done].
    cbn. rewrite !api_key_strip, lookup_delete_ne; [done|].
    intros <-. apply Hk.
    apply (API_KEY_ENV_VARS_inj model_id k env_var); [|done].
    by apply get_env_var_name_Ok.
Qed.

Lemma load_api_keys_unset_var_witness :
  load_api_keys (delete "OPENAI_API_KEY" {[ "OPENAI_API_KEY" := "sk-test" ]})
  = delete "gpt" (load_api_keys {[ "OPENAI_API_KEY" := "sk-test" ]}).
Proof.
  apply (load_api_keys_unset_var _ "gpt" "OPENAI_API_KEY").
  reflexivity.
Defined.

(** X15. The mapping is empty exactly when each of the five variables is unset
    or holds nothing but whitespace: every set variable strips to the empty
    string, that is, each of the five variables named below, when set,
    consists of whitespace characters only. *)
Theorem load_api_keys_empty_iff (environ : gmap string string) :
  (load_api_keys environ = ∅
   ↔ ∀ model_id env_var raw,
       get_env_var_name model_id = Ok env_var →
       environ !! env_var = Some raw →
       PyStr.strip raw = EmptyString)
  ∧ (load_api_keys environ = ∅
     ↔ ∀ env_var raw,
         env_var ∈ [ "OPENAI_API_KEY"; "ANTHROPIC_API_KEY"; "GOOGLE_API_KEY";
                     "PERPLEXITY_API_KEY"; "GROK_API_KEY" ] →
         environ !! env_var = Some raw →
         forallb PyStr.isspace (list_ascii_of_string raw) = true).
Proof.
  split.
  - rewrite map_empty. split.
    + intros Hnone model_id env_var raw Hv%get_env_var_name_Ok Hraw.
      specialize (Hnone model_id).
      rewrite load_api_keys_lookup, Hv in Hnone. cbn in Hnone.
      rewrite api_key_strip, Hraw in Hnone. cbn in Hnone.
      destruct (PyStr.strip raw); [done|discriminate].
    + intros Hall k. rewrite load_api_keys_lookup.
      destruct (assoc k _API_KEY_ENV_VARS) as [var|] eqn:Ek; [|done].
      cbn. rewrite api_key_strip.
      destruct (environ !! var) as [raw|] eqn:Hraw; [|done]. cbn.
      rewrite (Hall k var raw); [done| |done]. by apply get_env_var_name_Ok.
  - rewrite map_empty. split.
    + intros Hnone env_var raw Hin Hraw.
      rewrite !elem_of_cons, elem_of_nil in Hin.
      destruct Hin as [->|[->|[->|[->|[->|[]]]]]].
      * by apply (proj1 (load_api_keys_absent environ "gpt" _ eq_refl)
                    (Hnone "gpt")).
      * by apply (proj1 (load_api_keys_absent environ "claude" _ eq_refl)
                    (Hnone "claude")).
      * by apply (proj1 (load_api_keys_absent environ "gemini" _ eq_refl)
                    (Hnone "gemini")).
      * by apply (proj1 (load_api_keys_absent environ "perplexity" _ eq_refl)
                    (Hnone "perplexity")).
      * by apply (proj1 (load_api_keys_absent environ "grok" _ eq_refl)
                    (Hnone "grok")).
    + intros Hall k.
      destruct (assoc k _API_KEY_ENV_VARS) as [var|] eqn:Ek.
      * apply (load_api_keys_absent environ k var Ek). intros raw Hraw.
        apply (Hall var raw); [|done].
        apply assoc_Some_pair in Ek.
        by apply (list_elem_of_fmap_2 snd _ (k, var)) in Ek.
      * rewrite load_api_keys_lookup. by rewrite Ek.
Qed.

(** ** Construction and lookup together *)

Lemma field_default_outcome (arg : option loc) (e : bool) (n : string)
    (h : heap) :
  ∃ l h',
    field_default arg (ModelConfig_init e n None) h = (Ok l, h')
    ∧ h `prefix_of` h'
    ∧ match arg with
      | Some l0 => l = l0
      | None =>
          (length h ≤ l)%nat
          ∧ h' !! l = Some (OModelConfig (mkModelConfig e n 600))
      end.
Proof.
  destruct arg as [l0|]; simpl.
  - by exists l0, h.
  - eexists _, _. rewrite ModelConfig_init_run.
    split; [done|]. split; [by apply prefix_app_r|].
    split; [done|]. apply lookup_alloc.
Qed.

Lemma field_outcome_intro (arg : option loc) (l : loc) (d : ModelConfig)
    (h hi hi' h' : heap) :
  h `prefix_of` hi → hi' `prefix_of` h' →
  match arg with
  | Some l0 => l = l0
  | None => (length hi ≤ l)%nat ∧ hi' !! l = Some (OModelConfig d)
  end →
  field_outcome arg l d h h'.
Proof.
  intros P1 P2. unfold field_outcome. destruct arg as [l0|]; [done|].
  intros [Hle Hl]. split.
  - apply lookup_ge_None. apply prefix_length in P1. lia.
  - by eapply prefix_lookup_Some.
Qed.

(** The shape of a constructor call, with what each model field holds. *)
Lemma Config_init_fields (h : heap) (pm : loc) (ch : option string)
    (g cl ge p gr : option loc) :
  ∃ c hf,
    h `prefix_of` hf
    ∧ primary_models c = pm
    ∧ chairman_model c = default "gpt" ch
    ∧ field_outcome g (gpt c) default_gpt h (hf ++ [OConfig c])
    ∧ field_outcome cl (claude c) default_claude h (hf ++ [OConfig c])
    ∧ field_outcome ge (gemini c) default_gemini h (hf ++ [OConfig c])
    ∧ field_outcome p (perplexity c) default_perplexity h (hf ++ [OConfig c])
    ∧ field_outcome gr (grok c) default_grok h (hf ++ [OConfig c])
    ∧ Config_init pm ch g cl ge p gr h
      = bind (__post_init__ (length hf)) (λ _, ret (length hf))
          (hf ++ [OConfig c]).
Proof.
  unfold Config_init.
  destruct (field_default_outcome g true "gpt-4o" h)
    as (l1 & h1 & E1 & P1 & F1).
  destruct (field_default_outcome cl true "claude-sonnet-4-20250514" h1)
    as (l2 & h2 & E2 & P2 & F2).
  destruct (field_default_outcome ge false "gemini-1.5-pro" h2)
    as (l3 & h3 & E3 & P3 & F3).
  destruct (field_default_outcome p false "sonar-pro" h3)
    as (l4 & h4 & E4 & P4 & F4).
  destruct (field_default_outcome gr false "grok-2" h4)
    as (l5 & h5 & E5 & P5 & F5).
  rewrite (bind_Ok _ _ _ _ _ E1), (bind_Ok _ _ _ _ _ E2),
    (bind_Ok _ _ _ _ _ E3), (bind_Ok _ _ _ _ _ E4), (bind_Ok _ _ _ _ _ E5).
  set (c := {| primary_models := pm; chairman_model := default "gpt" ch;
               gpt := l1; claude := l2; gemini := l3;
               perplexity := l4; grok := l5 |}).
  exists c, h5.
  assert (h5 `prefix_of` h5 ++ [OConfig c]) as P6 by apply prefix_app_r, reflexivity.
  assert (h `prefix_of` h2) as Q2 by (by etrans).
  assert (h `prefix_of` h3) as Q3 by (by etrans).
  assert (h `prefix_of` h4) as Q4 by (by etrans).
  assert (h `prefix_of` h5) as Q5 by (by etrans).
  assert (h4 `prefix_of` h5 ++ [OConfig c]) as R4 by (by etrans).
  assert (h3 `prefix_of` h5 ++ [OConfig c]) as R3 by (by etrans).
  assert (h2 `prefix_of` h5 ++ [OConfig c]) as R2 by (by etrans).
  assert (h1 `prefix_of` h5 ++ [OConfig c]) as R1 by (by etrans).
  split; [done|]. split; [done|]. split; [done|].
  split; [by apply (field_outcome_intro g l1 _ h h h1)|].
  split; [by apply (field_outcome_intro cl l2 _ h h1 h2)|].
  split; [by apply (field_outcome_intro ge l3 _ h h2 h3)|].
  split; [by apply (field_outcome_intro p l4 _ h h3 h4)|].
  split; [by apply (field_outcome_intro gr l5 _ h h4 h5)|].
  done.
Qed.

(** A successful constructor call, read back through the heap. *)
Lemma Config_init_Ok_fields (h h' : heap) (pm : loc) (ch : option string)
    (g cl ge p gr : option loc) (self : loc) :
  Config_init pm ch g cl ge p gr h = (Ok self, h') →
  ∃ c,
    h' !! self = Some (OConfig c)
    ∧ h `prefix_of` h'
    ∧ h !! self = None
    ∧ primary_models c = pm
    ∧ chairman_model c = default "gpt" ch
    ∧ field_outcome g (gpt c) default_gpt h h'
    ∧ field_outcome cl (claude c) default_claude h h'
    ∧ field_outcome ge (gemini c) default_gemini h h'
    ∧ field_outcome p (perplexity c) default_perplexity h h'
    ∧ field_outcome gr (grok c) default_grok h h'.
Proof.
  destruct (Config_init_fields h pm ch g cl ge p gr)
    as (c & hf & P & Epm & Ech & F1 & F2 & F3 & F4 & F5 & ->).
  unfold bind.
  destruct (__post_init__ (length hf) (hf ++ [OConfig c]))
    as [[u|e] h1] eqn:E; [|done].
  apply post_init_Ok in E as [-> _]. intros [= <- <-].
  exists c. split; [apply lookup_alloc|].
  split; [by etrans; [|apply prefix_app_r]|].
  split; [apply lookup_ge_None; by apply prefix_length|].
  done.
Qed.

(** X2. A [ModelConfig] passed to the constructor is the one the accessor
    returns afterwards: the same object, not a copy.  The accessor leaves the
    heap as it is. *)
Theorem Config_init_override_get
    (inherited : loc → string → option value) (h h' : heap) (pm : loc)
    (ch : option string) (lg lc lge lp lgr : loc) (self : loc) :
  Config_init pm ch (Some lg) (Some lc) (Some lge) (Some lp) (Some lgr) h
  = (Ok self, h') →
  get_model_config inherited self "gpt" h' = (Ok (VRef lg), h')
  ∧ get_model_config inherited self "claude" h' = (Ok (VRef lc), h')
  ∧ get_model_config inherited self "gemini" h' = (Ok (VRef lge), h')
  ∧ get_model_config inherited self "perplexity" h' = (Ok (VRef lp), h')
  ∧ get_model_config inherited self "grok" h' = (Ok (VRef lgr), h').
Proof.
  intros (c & Hc & _ & _ & _ & _ & F1 & F2 & F3 & F4 & F5)%Config_init_Ok_fields.
  cbn in F1, F2, F3, F4, F5. subst.
  by rewrite !(get_model_config_run inherited h' self c) by done.
Qed.

Lemma Config_init_override_get_witness :
  let h := [ OList ["gemini"];
             OModelConfig (mkModelConfig true "gemini-2" 30) ] in
  let h' := (Config_init 0 (Some "gemini") (Some 1%nat) (Some 1%nat)
               (Some 1%nat) (Some 1%nat) (Some 1%nat) h).2 in
  get_model_config sample_inherited 2 "gpt" h' = (Ok (VRef 1), h')
  ∧ get_model_config sample_inherited 2 "claude" h' = (Ok (VRef 1), h')
  ∧ get_model_config sample_inherited 2 "gemini" h' = (Ok (VRef 1), h')
  ∧ get_model_config sample_inherited 2 "perplexity" h' = (Ok (VRef 1), h')
  ∧ get_model_config sample_inherited 2 "grok" h' = (Ok (VRef 1), h').
Proof.
  intros h h'.
  apply (Config_init_override_get sample_inherited h h' 0 (Some "gemini")
           1 1 1 1 1 2).
  reflexivity.
Defined.

(** X3. A model field left out of the constructor call holds a [ModelConfig]
    made by that call (it did not exist before) with the declared defaults:
    gpt-4o and claude-sonnet-4-20250514 enabled, gemini-1.5-pro, sonar-pro
    and grok-2 disabled, each with [timeout_sec] 600. *)
Theorem Config_init_default_fields
    (inherited : loc → string → option value) (h h' : heap) (pm : loc)
    (ch : option string) (self : loc) :
  Config_init pm ch None None None None None h = (Ok self, h') →
  ∃ lg lc lge lp lgr,
    get_model_config inherited self "gpt" h' = (Ok (VRef lg), h')
    ∧ get_model_config inherited self "claude" h' = (Ok (VRef lc), h')
    ∧ get_model_config inherited self "gemini" h' = (Ok (VRef lge), h')
    ∧ get_model_config inherited self "perplexity" h' = (Ok (VRef lp), h')
    ∧ get_model_config inherited self "grok" h' = (Ok (VRef lgr), h')
    ∧ h' !! lg = Some (OModelConfig (mkModelConfig true "gpt-4o" 600))
    ∧ h' !! lc
      = Some (OModelConfig
                (mkModelConfig true "claude-sonnet-4-20250514" 600))
    ∧ h' !! lge
      = Some (OModelConfig (mkModelConfig false "gemini-1.5-pro" 600))
    ∧ h' !! lp = Some (OModelConfig (mkModelConfig false "sonar-pro" 600))
    ∧ h' !! lgr = Some (OModelConfig (mkModelConfig false "grok-2" 600))
    ∧ Forall (λ l, h !! l = None) [lg; lc; lge; lp; lgr].
Proof.
  intros (c & Hc & _ & _ & _ & _ & F1 & F2 & F3 & F4 & F5)%Config_init_Ok_fields.
  destruct F1 as [N1 L1], F2 as [N2 L2], F3 as [N3 L3],
           F4 as [N4 L4], F5 as [N5 L5].
  exists (gpt c), (claude c), (gemini c), (perplexity c), (grok c).
  rewrite !(get_model_config_run inherited h' self c) by done.
  repeat split; try done.
  by repeat (apply Forall_cons_2; [done|]).
Qed.

Lemma Config_init_default_fields_witness :
  let h := [OList ["claude"]] in
  let h' := (Config_init 0 (Some "claude") None None None None None h).2 in
  ∃ lg lc lge lp lgr,
    get_model_config sample_inherited 6 "gpt" h' = (Ok (VRef lg), h')
    ∧ get_model_config sample_inherited 6 "claude" h' = (Ok (VRef lc), h')
    ∧ get_model_config sample_inherited 6 "gemini" h' = (Ok (VRef lge), h')
    ∧ get_model_config sample_inherited 6 "perplexity" h' = (Ok (VRef lp), h')
    ∧ get_model_config sample_inherited 6 "grok" h' = (Ok (VRef lgr), h')
    ∧ h' !! lg = Some (OModelConfig (mkModelConfig true "gpt-4o" 600))
    ∧ h' !! lc
      = Some (OModelConfig
                (mkModelConfig true "claude-sonnet-4-20250514" 600))
    ∧ h' !! lge
      = Some (OModelConfig (mkModelConfig false "gemini-1.5-pro" 600))
    ∧ h' !! lp = Some (OModelConfig (mkModelConfig false "sonar-pro" 600))
    ∧ h' !! lgr = Some (OModelConfig (mkModelConfig false "grok-2" 600))
    ∧ Forall (λ l, h !! l = None) [lg; lc; lge; lp; lgr].
Proof.
  intros h h'.
  apply (Config_init_default_fields sample_inherited h h' 0
           (Some "claude") 6).
  reflexivity.
Defined.

(** [__post_init__] only reads: whatever it returns or raises, the heap is
    the one it was called on. *)
Lemma post_init_heap (self : loc) (h : heap) : (__post_init__ self h).2 = h.
Proof.
  unfold __post_init__, bind, read_config, read.
  destruct (h !! self) as [[| |c]|]; try done.
  destruct (h !! primary_models c) as [[items| |]|]; try done.
  unfold raise_if, raise, ret.
  destruct (list_truthy items); simpl; [|done].
  by destruct (list_contains (chairman_model c) items).
Qed.

(** X4. Whatever the arguments and whatever the outcome, a constructor call
    only adds objects: every object that existed before, the list passed as
    [primary_models] included, is afterwards what it was. *)
Theorem Config_init_only_allocates (h : heap) (pm : loc)
    (ch : option string) (g cl ge p gr : option loc) :
  h `prefix_of` (Config_init pm ch g cl ge p gr h).2
  ∧ ∀ l o, h !! l = Some o →
           (Config_init pm ch g cl ge p gr h).2 !! l = Some o.
Proof.
  assert (h `prefix_of` (Config_init pm ch g cl ge p gr h).2) as P.
  { destruct (Config_init_shape h pm ch g cl ge p gr)
      as (c & hf & P & _ & _ & _ & _ & _ & _ & _ & ->).
    unfold bind.
    pose proof (post_init_heap (length hf) (hf ++ [OConfig c])) as Hh.
    destruct (__post_init__ (length hf) (hf ++ [OConfig c])) as [[u|e] h1];
      simpl in Hh; subst h1; simpl; by etrans; [|apply prefix_app_r]. }
  split; [done|]. intros l o Hl. by eapply prefix_lookup_Some.
Qed.

(** X5. On a list of strings the constructor raises nothing but the
    validation error. *)
Theorem Config_init_raises_ValueError (h h' : heap) (pm : loc)
    (items : list string) (ch : option string) (g cl ge p gr : option loc)
    (e : exn) :
  h !! pm = Some (OList items) →
  Config_init pm ch g cl ge p gr h = (Raise e, h') →
  ∃ msg, e = ValueError msg.
Proof.
  intros Hpm.
  destruct (Config_init_run h pm items ch g cl ge p gr Hpm)
    as (c & hf & _ & _ & _ & ->).
  unfold validation.
  destruct (list_truthy items); simpl; [|intros [= <- _]; eauto].
  destruct (list_contains (default "gpt" ch) items); simpl; [done|].
  intros [= <- _]; eauto.
Qed.

Lemma Config_init_raises_ValueError_witness :
  ∃ msg,
    ValueError "primary_models must contain at least one model"
    = ValueError msg.
Proof.
  apply (Config_init_raises_ValueError [OList []]
           (Config_init 0 None None None None None None [OList []]).2
           0 [] None None None None None None).
  - reflexivity.
  - reflexivity.
Defined.

(** X6. With [chairman_model] left out, the chairman is "gpt": construction
    succeeds exactly when "gpt" is among the primary models. *)
Theorem Config_init_default_chairman (h : heap) (pm : loc)
    (items : list string) (g cl ge p gr : option loc) :
  h !! pm = Some (OList items) →
  (∃ self h' c,
     Config_init pm None g cl ge p gr h = (Ok self, h')
     ∧ h' !! self = Some (OConfig c)
     ∧ chairman_model c = "gpt")
  ↔ "gpt" ∈ items.
Proof.
  intros Hpm.
  destruct (Config_init_run h pm items None g cl ge p gr Hpm)
    as (c & hf & _ & _ & Ech & E).
  rewrite E. cbn [default] in *. split.
  - intros (self & h' & c' & Hr & _).
    destruct (validation items "gpt") as [[]|] eqn:V; [|done].
    by apply validation_Ok in V as [_ ?].
  - intros Hin. assert (validation items "gpt" = Ok tt) as ->.
    { apply validation_Ok. split; [|done]. intros ->.
      by apply not_elem_of_nil in Hin. }
    exists (length hf), (hf ++ [OConfig c]), c.
    split; [done|]. split; [apply lookup_alloc|done].
Qed.

Lemma Config_init_default_chairman_witness :
  (∃ self h' c,
     Config_init 0 None None None None None None [OList ["claude"]]
     = (Ok self, h')
     ∧ h' !! self = Some (OConfig c)
     ∧ chairman_model c = "gpt")
  ↔ "gpt" ∈ ["claude"].
Proof.
  apply (Config_init_default_chairman [OList ["claude"]] 0 ["claude"]).
  reflexivity.
Defined.

(** X7. On a [Config] instance, whatever further attributes the run-time
    system gives it, the accessor only reads; it returns an attribute of the
    instance when there is one of the given name, and otherwise raises the
    lookup error that names the identifier, which is the one exception it
    can raise: the [AttributeError] of the lookup never escapes. *)
Theorem get_model_config_reads_only
    (inherited : loc → string → option value) (h : heap) (self : loc)
    (c : Config) (model_id : string) :
  h !! self = Some (OConfig c) →
  ∃ r,
    get_model_config inherited self model_id h = (r, h)
    ∧ (∀ e, r = Raise e →
            e = KeyError ("Unknown model_id: '" +:+ model_id +:+ "'"))
    ∧ ((∃ e, r = Raise e)
       ↔ assoc model_id (instance_dict c) = None
         ∧ assoc model_id (class_dict self) = None
         ∧ inherited self model_id = None)
    ∧ (∀ v, r = Ok v →
            getattr inherited self model_id h = (Ok v, h)).
Proof.
  intros Hc. rewrite (get_model_config_run inherited h self c) by done.
  rewrite (getattr_run inherited h self c) by done.
  eexists. split; [reflexivity|].
  destruct (assoc model_id (instance_dict c)) as [v1|].
  { split; [by intros e [=]|]. split; [|by intros v [= ->]].
    split; [by intros [e [=]] | by intros [[=] _]]. }
  destruct (assoc model_id (class_dict self)) as [v2|].
  { split; [by intros e [=]|]. split; [|by intros v [= ->]].
    split; [by intros [e [=]] | by intros (_ & [=] & _)]. }
  destruct (inherited self model_id) as [v3|].
  { split; [by intros e [=]|]. split; [|by intros v [= ->]].
    split; [by intros [e [=]] | by intros (_ & _ & [=])]. }
  split; [by intros e [= <-]|]. split; [|by intros v [=]].
  split; [done | eauto].
Qed.

Lemma get_model_config_reads_only_witness :
  let h := (default_config []).2 in
  let c := mkConfig 0 "gpt" 1 2 3 4 5 in
  ∃ r,
    get_model_config sample_inherited 6 "__init__" h = (r, h)
    ∧ (∀ e, r = Raise e → e = KeyError "Unknown model_id: '__init__'")
    ∧ ((∃ e, r = Raise e)
       ↔ assoc "__init__" (instance_dict c) = None
         ∧ assoc "__init__" (class_dict 6) = None
         ∧ sample_inherited 6 "__init__" = None)
    ∧ (∀ v, r = Ok v →
            getattr sample_inherited 6 "__init__" h = (Ok v, h)).
Proof.
  intros h c.
  apply (get_model_config_reads_only sample_inherited h 6 c "__init__").
  reflexivity.
Defined.

Lemma get_model_config_known_witness :
  let h := (default_config []).2 in
  get_model_config sample_inherited 6 "gpt" h = (Ok (VRef 1), h)
  ∧ get_model_config sample_inherited 6 "claude" h = (Ok (VRef 2), h)
  ∧ get_model_config sample_inherited 6 "gemini" h = (Ok (VRef 3), h)
  ∧ get_model_config sample_inherited 6 "perplexity" h = (Ok (VRef 4), h)
  ∧ get_model_config sample_inherited 6 "grok" h = (Ok (VRef 5), h).
Proof.
  intros h.
  apply (get_model_config_known sample_inherited h 6
           (mkConfig 0 "gpt" 1 2 3 4 5)).
  reflexivity.
Defined.

(** X16. On any heap, the configuration [default_config] returns gives, for
    each of the five identifiers, a [ModelConfig] with the declared default
    name, enabled flag and timeout; the five are distinct objects. *)
Theorem default_config_get_model_config
    (inherited : loc → string → option value) (h : heap) :
  ∃ self h' lg lc lge lp lgr,
    default_config h = (Ok self, h')
    ∧ get_model_config inherited self "gpt" h' = (Ok (VRef lg), h')
    ∧ get_model_config inherited self "claude" h' = (Ok (VRef lc), h')
    ∧ get_model_config inherited self "gemini" h' = (Ok (VRef lge), h')
    ∧ get_model_config inherited self "perplexity" h' = (Ok (VRef lp), h')
    ∧ get_model_config inherited self "grok" h' = (Ok (VRef lgr), h')
    ∧ h' !! lg = Some (OModelConfig (mkModelConfig true "gpt-4o" 600))
    ∧ h' !! lc
      = Some (OModelConfig
                (mkModelConfig true "claude-sonnet-4-20250514" 600))
    ∧ h' !! lge
      = Some (OModelConfig (mkModelConfig false "gemini-1.5-pro" 600))
    ∧ h' !! lp = Some (OModelConfig (mkModelConfig false "sonar-pro" 600))
    ∧ h' !! lgr = Some (OModelConfig (mkModelConfig false "grok-2" 600))
    ∧ NoDup [lg; lc; lge; lp; lgr].
Proof.
  pose proof (default_config_run h) as E. cbv zeta in E.
  set (n := length h) in *.
  set (c := mkConfig n "gpt" (n + 1) (n + 2) (n + 3) (n + 4) (n + 5)) in *.
  set (objs := [ OList ["gpt"; "claude"];
                 OModelConfig default_gpt; OModelConfig default_claude;
                 OModelConfig default_gemini; OModelConfig default_perplexity;
                 OModelConfig default_grok; OConfig c ]) in *.
  assert (∀ i, (h ++ objs) !! (n + i)%nat = objs !! i) as L
    by (intros i; apply lookup_app_plus).
  exists (n + 6)%nat, (h ++ objs), (n + 1)%nat, (n + 2)%nat, (n + 3)%nat,
    (n + 4)%nat, (n + 5)%nat.
  split; [exact E|].
  rewrite !(get_model_config_run inherited (h ++ objs) (n + 6) c)
    by (by etrans; [apply L|]).
  do 5 (split; [reflexivity|]).
  do 5 (split; [by etrans; [apply L|]|]).
  solve_NoDup.
Qed.
